(** * annotator.store: the HTTP layer of the annotation store

    A shallow embedding of [annotator/store.py].  The view functions are
    written in a small monad of collaborator calls ([prog]): every call to
    the storage model ([Annotation.fetch], [save], [delete], [search],
    [count]), to the authorization function [g.authorize] and to the optional
    lifecycle hooks is a node of the program, answered by an arbitrary
    stateful environment when the program is run.  Running a view gives its
    outcome, the list of calls it made, in order, and the final state of the
    environment.

    The views are taken as Flask calls them: [g.user] is what
    [before_request] bound, [request.json] is the parsed body or [None].
    [before_request] and [after_request] are modelled apart from the views,
    on the attribute of [g] and on the headers that they change. *)

From Stdlib Require Import ZArith String Ascii.
From Stdlib Require Import Floats.PrimFloat Floats.SpecFloat Floats.FloatOps.
From stdpp Require Import gmap strings list fin_maps pretty.

(** ** Python values *)

(** What [json.loads] produces: [None], booleans, integers, floats, text,
    lists and dictionaries with text keys. *)
#[warnings="-register-all"]
Inductive jvalue : Type :=
| JNull
| JBool (b : bool)
| JInt (n : Z)
| JFloat (f : float)
| JStr (s : string)
| JList (l : list jvalue)
| JDict (d : gmap string jvalue).

(** Truth value of an object, as tested by [if obj] and [not obj]. *)
Definition truthy (v : jvalue) : bool :=
  match v with
  | JNull => false
  | JBool b => b
  | JInt n => negb (n =? 0)%Z
  | JFloat f => negb (PrimFloat.eqb f 0%float)
  | JStr s => negb (String.length s =? 0)%nat
  | JList l => negb (length l =? 0)%nat
  | JDict d => negb (size d =? 0)%nat
  end.

(** [float == int]: Python compares the two exactly, without rounding the
    integer. *)
Definition float_eq_Z (f : float) (n : Z) : bool :=
  match Prim2SF f with
  | S754_zero _ => (n =? 0)%Z
  | S754_finite s m e =>
      let v := if s then Z.neg m else Z.pos m in
      if (0 <=? e)%Z then (n =? v * 2 ^ e)%Z
      else ((v mod 2 ^ (- e) =? 0) && (n =? v / 2 ^ (- e)))%Z
  | S754_infinity _ => false
  | S754_nan => false
  end.

(** [a == b] on such values.  Booleans are the integers 0 and 1, numbers
    compare by value, lists pointwise, dictionaries by key set and values;
    values of different kinds are unequal. *)
Fixpoint py_eq (a : jvalue) {struct a} : jvalue -> bool :=
  match a with
  | JNull => fun b => match b with JNull => true | _ => false end
  | JBool x => fun b =>
      match b with
      | JBool y => Bool.eqb x y
      | JInt n => (Z.b2z x =? n)%Z
      | JFloat f => float_eq_Z f (Z.b2z x)
      | _ => false
      end
  | JInt n => fun b =>
      match b with
      | JBool y => (n =? Z.b2z y)%Z
      | JInt m => (n =? m)%Z
      | JFloat f => float_eq_Z f n
      | _ => false
      end
  | JFloat f => fun b =>
      match b with
      | JBool y => float_eq_Z f (Z.b2z y)
      | JInt m => float_eq_Z f m
      | JFloat f' => PrimFloat.eqb f f'
      | _ => false
      end
  | JStr s => fun b =>
      match b with
      | JStr t => bool_decide (s = t)
      | _ => false
      end
  | JList l => fun b =>
      match b with
      | JList r =>
          (fix pointwise (l r : list jvalue) {struct l} : bool :=
             match l, r with
             | [], [] => true
             | x :: l', y :: r' => py_eq x y && pointwise l' r'
             | _, _ => false
             end) l r
      | _ => false
      end
  | JDict d => fun b =>
      match b with
      | JDict e =>
          (size d =? size e)%nat &&
          map_fold (fun k v acc =>
                      acc && match e !! k with
                             | Some w => py_eq v w
                             | None => false
                             end) true d
      | _ => false
      end
  end.

(** [int(s)] on a text string: blanks around, an optional sign, then one or
    more decimal digits.  [None] stands for [ValueError]. *)
Definition is_space (c : ascii) : bool :=
  let n := nat_of_ascii c in
  ((9 <=? n) && (n <=? 13) || (n =? 32))%nat.

Definition digit_of (c : ascii) : option Z :=
  let n := Z.of_nat (nat_of_ascii c) in
  if ((48 <=? n) && (n <=? 57))%Z then Some (n - 48)%Z else None.

Fixpoint lstrip (s : string) : string :=
  match s with
  | String c s' => if is_space c then lstrip s' else s
  | EmptyString => EmptyString
  end.

Fixpoint all_space (s : string) : bool :=
  match s with
  | String c s' => is_space c && all_space s'
  | EmptyString => true
  end.

Fixpoint digits (acc : Z) (s : string) : option Z :=
  match s with
  | EmptyString => Some acc
  | String c s' =>
      match digit_of c with
      | Some d => digits (10 * acc + d) s'
      | None => if all_space s then Some acc else None
      end
  end.

Definition is_Some_dec {A} (o : option A) : bool :=
  match o with
  | Some _ => true
  | None => false
  end.

Definition unsigned_int (s : string) : option Z :=
  match s with
  | String c _ => if is_Some_dec (digit_of c) then digits 0 s else None
  | EmptyString => None
  end.

Definition py_int (s : string) : option Z :=
  match lstrip s with
  | String "-" r => Z.opp <$> unsigned_int r
  | String "+" r => unsigned_int r
  | r => unsigned_int r
  end.

(** [str.format] of an attribute that may be [None]. *)
Definition format_field (o : option string) : string :=
  match o with
  | Some s => s
  | None => "None"
  end.

(** ** The request context *)

Module Consumer.
Record t := { key : string }.
End Consumer.

Module User.
Record t := { id : string; consumer : Consumer.t }.
End User.

(** The part of [flask.g] the views read: the user bound by
    [before_request] ([None] for an anonymous caller) and whether the
    embedding application registered the two hooks. *)
Module G.
Record t := {
  user : option User.t;
  has_after_annotation_create : bool;
  has_before_annotation_update : bool
}.
End G.

(** The part of [flask.request] the views read. *)
Module Request.
Record t := {
  json : option jvalue;
  args : gmap string string;
  is_xhr : bool
}.
End Request.

Record Response := {
  data : jvalue;
  indent : option Z;
  mimetype : string;
  status : Z
}.

(** What a view function returns: a [Response], or the pair
    [(None, 204)] of [delete_annotation]. *)
Inductive view : Type :=
| ViewResponse (r : Response)
| ViewTuple (rv : option Response) (code : Z).

(** ** Collaborators *)

(** Modelled from the spec: [annotator.annotation.Annotation] is imported
    by the module and not part of it.  An annotation is a mapping from
    string keys to JSON values, and [Annotation(d)] is the annotation with
    the items of the dictionary [d]; [fetch], [save], [delete], [search]
    and [count] are the storage collaborator, [save] and the hooks may
    change the annotation they are given. *)
Abbreviation Annotation := (gmap string jvalue).

(** A search criterion: the text of a query parameter, or the integer that
    replaced it. *)
Inductive criterion : Type :=
| CStr (s : string)
| CInt (n : Z).

Inductive call : Type :=
| g_authorize (annotation : Annotation) (action : string) (user : option User.t)
| Annotation_fetch (id : string)
| Annotation_save (annotation : Annotation)
| Annotation_delete (annotation : Annotation)
| Annotation_search (kwargs : gmap string criterion)
| Annotation_count (kwargs : gmap string criterion)
| g_after_annotation_create (annotation : Annotation)
| g_before_annotation_update (annotation : Annotation).

(** What comes back from a call.  For [save] and the hooks, which work on
    the annotation object in place, it is the annotation as they leave it. *)
Definition answer (c : call) : Type :=
  match c with
  | g_authorize _ _ _ => bool
  | Annotation_fetch _ => option Annotation
  | Annotation_save _ => Annotation
  | Annotation_delete _ => unit
  | Annotation_search _ => list Annotation
  | Annotation_count _ => Z
  | g_after_annotation_create _ => Annotation
  | g_before_annotation_update _ => Annotation
  end.

Inductive exn : Type :=
| AttributeError
| TypeError.

Inductive prog (A : Type) : Type :=
| Ret (a : A)
| Raise (e : exn)
| Do (c : call) (k : answer c -> prog A).

Arguments Ret {A} a.
Arguments Raise {A} e.
Arguments Do {A} c k.

Fixpoint bind {A B : Type} (m : prog A) (f : A -> prog B) : prog B :=
  match m with
  | Ret a => f a
  | Raise e => Raise e
  | Do c k => Do c (fun x => bind (k x) f)
  end.

Definition perform (c : call) : prog (answer c) := Do c Ret.

Notation "'let*' x ':=' m 'in' k" := (bind m (fun x => k))
  (at level 10, x name, m at level 100, k at level 200).

Inductive outcome (A : Type) : Type :=
| Returned (a : A)
| Raised (e : exn).

Arguments Returned {A} a.
Arguments Raised {A} e.

(** Running a program against an environment: [handle] answers each call
    and moves the environment on.  The result is the outcome, the calls
    made, oldest first, and the environment afterwards. *)
Section Run.
Context {W : Type} (handle : forall c : call, W -> answer c * W).

Fixpoint run {A : Type} (p : prog A) (w : W) : outcome A * list call * W :=
  match p with
  | Ret a => (Returned a, [], w)
  | Raise e => (Raised e, [], w)
  | Do c k =>
      let '(x, w1) := handle c w in
      let '(o, t, w2) := run (k x) w1 in
      (o, c :: t, w2)
  end.
End Run.

(** A postcondition on the calls made and the value returned, whatever the
    collaborators answer. *)
Fixpoint ensures {A : Type} (P : list call -> A -> Prop) (p : prog A) : Prop :=
  match p with
  | Ret a => P [] a
  | Raise _ => True
  | Do c k => forall x, ensures (fun t a => P (c :: t) a) (k x)
  end.

(** ** The views *)

Definition CREATE_FILTER_FIELDS : list string :=
  ["updated"; "created"; "consumer"].
Definition UPDATE_FILTER_FIELDS : list string :=
  ["updated"; "created"; "user"; "consumer"].

(** [obj.pop(field, None)] for every field.  Only a dictionary has such a
    [pop]: a list takes one argument at most, the other values have no
    [pop] at all.  Both field tuples are non-empty, so the very first [pop]
    raises on anything that is not a dictionary. *)
Definition _filter_input (obj : jvalue) (fields : list string)
  : prog Annotation :=
  match obj with
  | JDict d => Ret (foldl (fun d field => delete field d) d fields)
  | JList _ => Raise TypeError
  | _ => Raise AttributeError
  end.

(** The best guess at the annotation's owner.  The result is a Python value,
    [JNull] for [None]. *)
Definition _get_annotation_user (ann : Annotation) : jvalue :=
  let user := default JNull (ann !! "user") in
  if negb (truthy user) then JNull
  else
    match user with
    | JDict d => default JNull (d !! "id")
    | _ => user
    end.

Definition _quiet_int (obj : criterion) (default : Z) : Z :=
  match obj with
  | CInt n => n
  | CStr s =>
      match py_int s with
      | Some n => n
      | None => default
      end
  end.

Section Views.
Variable g : G.t.
Variable request : Request.t.

Definition jsonify (obj : jvalue) (status : Z) : Response :=
  {| data := obj;
     indent := if Request.is_xhr request then None else Some 2%Z;
     mimetype := "application/json";
     status := status |}.

Definition _failed_authz_response (msg : string) : Response :=
  let user := User.id <$> G.user g in
  let consumer := (fun u => Consumer.key (User.consumer u)) <$> G.user g in
  jsonify
    (JStr ("Cannot authorize request"
           +:+ (if negb (String.length msg =? 0)%nat
                then " (" +:+ msg +:+ ")" else "")
           +:+ ". Perhaps you're not logged in as "
           +:+ "a user with appropriate permissions on this annotation? "
           +:+ "(user=" +:+ format_field user
           +:+ ", consumer=" +:+ format_field consumer +:+ ")"))
    401.

(** Returns the failure response, or [None] when the action is allowed. *)
Definition _check_action (annotation : Annotation) (action message : string)
  : prog (option Response) :=
  let* ok := perform (g_authorize annotation action (G.user g)) in
  if negb ok then Ret (Some (_failed_authz_response message))
  else Ret None.

Definition root : prog view :=
  Ret (ViewResponse (jsonify (JStr "Annotator Store API") 200)).

Definition index : prog view :=
  let* annotations := perform (Annotation_search ∅) in
  Ret (ViewResponse (jsonify (JList (JDict <$> annotations)) 200)).

Definition create_annotation : prog view :=
  match G.user g with
  | None => Ret (ViewResponse (_failed_authz_response "create annotation"))
  | Some user =>
      match Request.json request with
      | Some body =>
          if truthy body then
            let* annotation := _filter_input body CREATE_FILTER_FIELDS in
            let annotation :=
              <["consumer" := JStr (Consumer.key (User.consumer user))]>
                annotation in
            let annotation :=
              if negb (py_eq (_get_annotation_user annotation)
                             (JStr (User.id user)))
              then <["user" := JStr (User.id user)]> annotation
              else annotation in
            let* annotation := perform (Annotation_save annotation) in
            let* annotation :=
              if G.has_after_annotation_create g then
                let* annotation :=
                  perform (g_after_annotation_create annotation) in
                perform (Annotation_save annotation)
              else Ret annotation in
            Ret (ViewResponse (jsonify (JDict annotation) 200))
          else
            Ret (ViewResponse
                   (jsonify
                      (JStr "No JSON payload sent. Annotation not created.")
                      400))
      | None =>
          Ret (ViewResponse
                 (jsonify
                    (JStr "No JSON payload sent. Annotation not created.")
                    400))
      end
  end.

(** [not annotation] on what [Annotation.fetch] returned: [None], or an
    annotation without any key. *)
Definition found (fetched : option Annotation) : option Annotation :=
  match fetched with
  | Some annotation =>
      if truthy (JDict annotation) then Some annotation else None
  | None => None
  end.

Definition read_annotation (id : string) : prog view :=
  let* fetched := perform (Annotation_fetch id) in
  match found fetched with
  | None => Ret (ViewResponse (jsonify (JStr "Annotation not found!") 404))
  | Some annotation =>
      let* failure := _check_action annotation "read" "" in
      match failure with
      | Some failure => Ret (ViewResponse failure)
      | None => Ret (ViewResponse (jsonify (JDict annotation) 200))
      end
  end.

Definition update_annotation (id : string) : prog view :=
  let* fetched := perform (Annotation_fetch id) in
  match found fetched with
  | None =>
      Ret (ViewResponse
             (jsonify (JStr "Annotation not found! No update performed.")
                      404))
  | Some annotation =>
      let* failure := _check_action annotation "update" "" in
      match failure with
      | Some failure => Ret (ViewResponse failure)
      | None =>
          match Request.json request with
          | Some body =>
              if truthy body then
                let* updated := _filter_input body UPDATE_FILTER_FIELDS in
                let updated := <["id" := JStr id]> updated in
                let* failure :=
                  match updated !! "permissions" with
                  | Some permissions =>
                      if negb (py_eq permissions
                                 (default (JDict ∅)
                                    (annotation !! "permissions")))
                      then _check_action annotation "admin"
                                         "permissions update"
                      else Ret None
                  | None => Ret None
                  end in
                match failure with
                | Some failure => Ret (ViewResponse failure)
                | None =>
                    let annotation := updated ∪ annotation in
                    let* annotation :=
                      if G.has_before_annotation_update g then
                        perform (g_before_annotation_update annotation)
                      else Ret annotation in
                    let* annotation := perform (Annotation_save annotation) in
                    Ret (ViewResponse (jsonify (JDict annotation) 200))
                end
              else Ret (ViewResponse (jsonify (JDict annotation) 200))
          | None => Ret (ViewResponse (jsonify (JDict annotation) 200))
          end
      end
  end.

Definition delete_annotation (id : string) : prog view :=
  let* fetched := perform (Annotation_fetch id) in
  match found fetched with
  | None =>
      Ret (ViewResponse
             (jsonify (JStr "Annotation not found. No delete performed.")
                      404))
  | Some annotation =>
      let* failure := _check_action annotation "delete" "" in
      match failure with
      | Some failure => Ret (ViewResponse failure)
      | None =>
          let* _ := perform (Annotation_delete annotation) in
          Ret (ViewTuple None 204)
      end
  end.

Definition search_annotations : prog view :=
  let kwargs : gmap string criterion := CStr <$> Request.args request in
  let kwargs :=
    match kwargs !! "offset" with
    | Some offset => <["offset" := CInt (_quiet_int offset 0)]> kwargs
    | None => kwargs
    end in
  let kwargs :=
    match kwargs !! "limit" with
    | Some limit => <["limit" := CInt (_quiet_int limit 20)]> kwargs
    | None => kwargs
    end in
  let* results := perform (Annotation_search kwargs) in
  let* total := perform (Annotation_count kwargs) in
  Ret (ViewResponse
         (jsonify
            (JDict (<["total" := JInt total]>
                      (<["rows" := JList (JDict <$> results)]> ∅)))
            200)).

(** The routes of the blueprint. *)
Inductive route : Type :=
| GET_root
| GET_annotations
| POST_annotations
| GET_annotation (id : string)
| PUT_annotation (id : string)
| DELETE_annotation (id : string)
| GET_search.

Definition store (r : route) : prog view :=
  match r with
  | GET_root => root
  | GET_annotations => index
  | POST_annotations => create_annotation
  | GET_annotation id => read_annotation id
  | PUT_annotation id => update_annotation id
  | DELETE_annotation id => delete_annotation id
  | GET_search => search_annotations
  end.
End Views.

(** ** An environment to run the views in *)

(** Annotations kept in memory under their id and a table of the actions
    that are granted; the hooks mark the annotation they are given. *)
Module Memory.
Record world := {
  annotations : gmap string Annotation;
  granted : list string
}.

Definition id_of (a : Annotation) : string :=
  match a !! "id" with
  | Some (JStr i) => i
  | _ => "fresh"
  end.

Definition handle (c : call) (w : world) : answer c * world :=
  match c as c0 return answer c0 * world with
  | g_authorize _ action _ => (bool_decide (action ∈ granted w), w)
  | Annotation_fetch id => (annotations w !! id, w)
  | Annotation_save a =>
      let a' := <["id" := JStr (id_of a)]> a in
      (a', {| annotations := <[id_of a := a']> (annotations w);
              granted := granted w |})
  | Annotation_delete a =>
      (tt, {| annotations := delete (id_of a) (annotations w);
              granted := granted w |})
  | Annotation_search _ => ((map_to_list (annotations w)).*2, w)
  | Annotation_count _ => (Z.of_nat (size (annotations w)), w)
  | g_after_annotation_create a => (<["hooked" := JBool true]> a, w)
  | g_before_annotation_update a => (<["hooked" := JBool true]> a, w)
  end.

Definition alice : User.t :=
  {| User.id := "alice"; User.consumer := {| Consumer.key := "notes-app" |} |}.

Definition note : Annotation :=
  <["id" := JStr "42"]>
    (<["text" := JStr "hi"]>
       (<["user" := JStr "alice"]>
          (<["permissions" := JDict ∅]> ∅))).

Definition shelf (granted : list string) : world :=
  {| annotations := <["42" := note]> ∅; granted := granted |}.

Definition as_user (u : option User.t) : G.t :=
  {| G.user := u;
     G.has_after_annotation_create := false;
     G.has_before_annotation_update := false |}.

Definition with_body (body : option jvalue) : Request.t :=
  {| Request.json := body; Request.args := ∅; Request.is_xhr := false |}.

Definition with_args (args : gmap string string) : Request.t :=
  {| Request.json := None; Request.args := args; Request.is_xhr := false |}.

(** A body that claims another owner, another consumer and a date. *)
Definition forged : Annotation :=
  <["text" := JStr "hi"]>
    (<["user" := JStr "mallory"]>
       (<["consumer" := JStr "evil-app"]>
          (<["created" := JStr "2011-01-01"]>
             (<["id" := JStr "7"]> ∅)))).

(** A body that opens the annotation to another reader. *)
Definition opened : Annotation :=
  <["permissions" := JDict (<["read" := JList [JStr "mallory"]]> ∅)]>
    (<["text" := JStr "hello"]> ∅).
End Memory.

(** The same request without its body. *)
Definition without_body (request : Request.t) : Request.t :=
  {| Request.json := None;
     Request.args := Request.args request;
     Request.is_xhr := Request.is_xhr request |}.

(** The same request with another query string. *)
Definition with_query (request : Request.t) (args : gmap string string)
  : Request.t :=
  {| Request.json := Request.json request;
     Request.args := args;
     Request.is_xhr := Request.is_xhr request |}.

(** The calls that only look: fetching and asking for authorization. *)
Definition is_check (c : call) : Prop :=
  match c with
  | Annotation_fetch _ | g_authorize _ _ _ => True
  | _ => False
  end.

(** [s in m] on text. *)
Fixpoint contains (s m : string) : bool :=
  String.prefix s m
  || match m with
     | String _ m' => contains s m'
     | EmptyString => false
     end.

(** ** Around the views *)

(** [before_request].  [resolved] is what [g.auth.request_user(request)]
    answered; the second argument and the result are the [user] attribute
    of [g], [None] when [g] has no such attribute. *)
Definition before_request (resolved : option User.t)
    (g_user : option (option User.t)) : option (option User.t) :=
  match resolved with
  | Some user => Some (Some user)
  | None =>
      match g_user with
      | Some bound => Some bound
      | None => Some None
      end
  end.

(** The headers of a response: a list of names and values, where names
    are compared without regard to case.  [set] is what [headers[key] =
    value] does: the first header of that name is replaced, any other of
    that name is dropped, and a new name goes to the end. *)
Module Headers.
Definition lower_ascii (c : ascii) : ascii :=
  let n := nat_of_ascii c in
  if ((65 <=? n) && (n <=? 90))%nat then ascii_of_nat (n + 32) else c.

Fixpoint lower (s : string) : string :=
  match s with
  | String c s' => String (lower_ascii c) (lower s')
  | EmptyString => EmptyString
  end.

Definition same (key key' : string) : bool :=
  String.eqb (lower key) (lower key').

Fixpoint get (key : string) (headers : list (string * string))
  : option string :=
  match headers with
  | [] => None
  | (key', value) :: headers' =>
      if same key key' then Some value else get key headers'
  end.

Fixpoint set (key value : string) (headers : list (string * string))
  : list (string * string) :=
  match headers with
  | [] => [(key, value)]
  | (key', value') :: headers' =>
      if same key key'
      then (key, value)
           :: List.filter (fun h => negb (same key h.1)) headers'
      else (key', value') :: set key value headers'
  end.
End Headers.

(** [after_request], on the headers of the response.  [origin] is the
    [Origin] header of the request, if it has one, and [method] its
    method. *)
Definition after_request (origin : option string) (method : string)
    (headers : list (string * string)) : list (string * string) :=
  let ac := "Access-Control-" in
  let headers :=
    Headers.set (ac +:+ "Allow-Origin") (default "*" origin) headers in
  let headers :=
    Headers.set (ac +:+ "Expose-Headers")
      "Content-Length, Content-Type, Location" headers in
  if String.eqb method "OPTIONS" then
    let headers :=
      Headers.set (ac +:+ "Allow-Headers")
        ("Content-Length, Content-Type, X-Annotator-Auth-Token, "
         +:+ "X-Requested-With") headers in
    let headers :=
      Headers.set (ac +:+ "Allow-Methods")
        "GET, POST, PUT, DELETE, OPTIONS" headers in
    Headers.set (ac +:+ "Max-Age") "86400" headers
  else headers.

(** An application that registered both hooks, for a caller. *)
Definition with_hooks (u : option User.t) : G.t :=
  {| G.user := u;
     G.has_after_annotation_create := true;
     G.has_before_annotation_update := true |}.

(** A condition on the calls made and on the outcome, a raised exception
    included, whatever the collaborators answer. *)
Fixpoint always {A : Type} (P : list call -> outcome A -> Prop) (p : prog A)
  : Prop :=
  match p with
  | Ret a => P [] (Returned a)
  | Raise e => P [] (Raised e)
  | Do c k => forall x, always (fun t o => P (c :: t) o) (k x)
  end.

(** The calls that change nothing: the checks, searching and counting. *)
Definition is_read (c : call) : Prop :=
  match c with
  | Annotation_fetch _ | g_authorize _ _ _
  | Annotation_search _ | Annotation_count _ => True
  | _ => False
  end.

(** * Properties *)

(** ** Dictionaries and values *)

Lemma truthy_dict_lookup (d : gmap string jvalue) k v :
  d !! k = Some v -> truthy (JDict d) = true.
Proof.
  intros Hk. cbn. destruct (size d) eqn:Hsize; [|reflexivity].
  apply map_size_empty_inv in Hsize. subst d.
  rewrite lookup_empty in Hk. discriminate.
Qed.

Lemma lookup_pop_all (fields : list string) (d : gmap string jvalue) k :
  foldl (fun d field => delete field d) d fields !! k
  = if decide (k ∈ fields) then None else d !! k.
Proof.
  revert d. induction fields as [|f fields IH]; intros d; cbn.
  - rewrite decide_False; [reflexivity|]. apply not_elem_of_nil.
  - rewrite IH. destruct (decide (k = f)) as [->|Hne].
    + rewrite lookup_delete_eq.
      rewrite (decide_True (P := f ∈ f :: fields)); [|left].
      destruct (decide (f ∈ fields)); reflexivity.
    + rewrite lookup_delete_ne by congruence.
      destruct (decide (k ∈ fields)) as [Hin|Hnin].
      * rewrite decide_True; [reflexivity|]. right. exact Hin.
      * rewrite decide_False; [reflexivity|].
        intros Hin. apply elem_of_cons in Hin. tauto.
Qed.

(** A key that is none of the listed fields. *)
Ltac not_a_field :=
  let Hin := fresh "Hin" in
  intros Hin;
  repeat (apply elem_of_cons in Hin as [Hin|Hin]; [discriminate Hin|]);
  exact (proj1 (elem_of_nil _) Hin).

(** Use what is known of a run, up to unfolding of the program. *)
Ltac rewrite_run H :=
  match type of H with
  | run ?h _ ?w = ?result =>
      match goal with
      | |- context [run h ?p w] =>
          replace (run h p w) with result by (symmetry; exact H)
      end
  end.

Lemma py_eq_str (v : jvalue) (s : string) :
  py_eq v (JStr s) = true <-> v = JStr s.
Proof.
  destruct v; cbn; try (split; [discriminate|discriminate]).
  rewrite bool_decide_eq_true. split; congruence.
Qed.


(** ** Text *)

Lemma prefix_append (s b : string) : String.prefix s (s +:+ b) = true.
Proof.
  induction s as [|c s IH]; simpl; [destruct b; reflexivity|].
  destruct (ascii_dec c c); [exact IH|congruence].
Qed.

Lemma contains_prefix (s m : string) :
  String.prefix s m = true -> contains s m = true.
Proof. destruct m; simpl; intros ->; reflexivity. Qed.

Lemma contains_prepend (s a m : string) :
  contains s m = true -> contains s (a +:+ m) = true.
Proof.
  intros Hm. induction a as [|c a IH]; simpl; [exact Hm|].
  rewrite IH. apply orb_true_r.
Qed.

Lemma contains_append (s a b : string) : contains s (a +:+ s +:+ b) = true.
Proof. apply contains_prepend, contains_prefix, prefix_append. Qed.


Section Properties.
Context {W : Type} (handle : forall c : call, W -> answer c * W).
Implicit Types (w : W) (g : G.t) (request : Request.t).
Implicit Types (annotation : Annotation) (id : string).

(** ** Create without an identity *)

(** C4: a create request from an anonymous caller is answered 401 and
    makes no call at all to a collaborator, so nothing is saved and the
    environment is as before. *)
Theorem create_annotation_anonymous g request w :
  G.user g = None ->
  exists r,
    run handle (create_annotation g request) w
    = (Returned (ViewResponse r), [], w)
    /\ status r = 401%Z.
Proof.
  intros Hanon. unfold create_annotation. rewrite Hanon.
  eexists. split; [reflexivity|reflexivity].
Qed.

(** ** Update without a body *)

(** C8: when the annotation is found and the update is authorized, an
    update request without JSON body returns the annotation as fetched
    with status 200; the only calls are the fetch and the authorization,
    nothing is merged or saved. *)
Theorem update_annotation_without_body g request id annotation w w1 w2 :
  handle (Annotation_fetch id) w = (Some annotation, w1) ->
  truthy (JDict annotation) = true ->
  handle (g_authorize annotation "update" (G.user g)) w1 = (true, w2) ->
  Request.json request = None ->
  exists r,
    run handle (update_annotation g request id) w
    = (Returned (ViewResponse r),
       [Annotation_fetch id; g_authorize annotation "update" (G.user g)], w2)
    /\ status r = 200%Z
    /\ data r = JDict annotation.
Proof.
  intros Hfetch Hfound Hauth Hbody.
  unfold update_annotation, _check_action, perform. cbn.
  rewrite Hfetch. cbn in *. rewrite Hfound. cbn.
  rewrite Hauth. cbn. rewrite Hbody. cbn.
  eexists. split; [reflexivity|]. split; reflexivity.
Qed.

(** ** A body that is falsy *)

(** C10: a body that parsed to a falsy value is handled as no body at
    all.  The create and update views run exactly as on the request
    without body, whatever the collaborators answer; an authenticated
    create is answered 400 without any call, and an update that passes
    the fetch and the authorization returns the annotation as fetched
    with status 200 after these two calls only. *)
Theorem falsy_body_as_absent g request id body w :
  Request.json request = Some body ->
  truthy body = false ->
  run handle (create_annotation g request) w
  = run handle (create_annotation g (without_body request)) w
  /\ run handle (update_annotation g request id) w
     = run handle (update_annotation g (without_body request) id) w
  /\ (forall user, G.user g = Some user ->
      exists r,
        run handle (create_annotation g request) w
        = (Returned (ViewResponse r), [], w)
        /\ status r = 400%Z)
  /\ (forall annotation w1 w2,
      handle (Annotation_fetch id) w = (Some annotation, w1) ->
      truthy (JDict annotation) = true ->
      handle (g_authorize annotation "update" (G.user g)) w1 = (true, w2) ->
      exists r,
        run handle (update_annotation g request id) w
        = (Returned (ViewResponse r),
           [Annotation_fetch id;
            g_authorize annotation "update" (G.user g)], w2)
        /\ status r = 200%Z
        /\ data r = JDict annotation).
Proof.
  intros Hbody Hfalsy. repeat split.
  - unfold create_annotation. rewrite Hbody. cbn. rewrite Hfalsy.
    destruct (G.user g); reflexivity.
  - unfold update_annotation, _check_action, perform. cbn.
    rewrite Hbody, Hfalsy.
    destruct (handle (Annotation_fetch id) w) as [fetched w1].
    destruct (found fetched) as [annotation|]; cbn; [|reflexivity].
    destruct (handle (g_authorize annotation "update" (G.user g)) w1)
      as [[|] w2]; reflexivity.
  - intros user Huser. unfold create_annotation.
    rewrite Huser, Hbody, Hfalsy. eexists. split; reflexivity.
  - intros annotation w1 w2 Hfetch Hfound Hauth.
    unfold update_annotation, _check_action, perform. cbn.
    rewrite Hfetch. cbn in *. rewrite Hfound. cbn.
    rewrite Hauth. cbn. rewrite Hbody, Hfalsy.
    eexists. split; [reflexivity|]. split; reflexivity.
Qed.

(** ** Updating the permissions *)

(** C2: when an update that passed the fetch and the update authorization
    carries permissions that differ from the stored ones (an empty
    dictionary when none are stored), the next call asks for the admin
    action; if that is refused the answer is 401 with the message of a
    permissions update, and these three calls are all that happened: no
    hook and no save. *)
Theorem update_permissions_needs_admin
    g request id annotation d permissions w w1 w2 :
  handle (Annotation_fetch id) w = (Some annotation, w1) ->
  truthy (JDict annotation) = true ->
  handle (g_authorize annotation "update" (G.user g)) w1 = (true, w2) ->
  Request.json request = Some (JDict d) ->
  d !! "permissions" = Some permissions ->
  py_eq permissions (default (JDict ∅) (annotation !! "permissions"))
  = false ->
  (exists o rest w',
     run handle (update_annotation g request id) w
     = (o,
        Annotation_fetch id
        :: g_authorize annotation "update" (G.user g)
        :: g_authorize annotation "admin" (G.user g)
        :: rest, w'))
  /\ (forall w3,
      handle (g_authorize annotation "admin" (G.user g)) w2 = (false, w3) ->
      exists r,
        run handle (update_annotation g request id) w
        = (Returned (ViewResponse r),
           [Annotation_fetch id;
            g_authorize annotation "update" (G.user g);
            g_authorize annotation "admin" (G.user g)], w3)
        /\ status r = 401%Z
        /\ data r
           = JStr ("Cannot authorize request (permissions update). "
                   +:+ "Perhaps you're not logged in as a user with "
                   +:+ "appropriate permissions on this annotation? "
                   +:+ "(user=" +:+ format_field (User.id <$> G.user g)
                   +:+ ", consumer="
                   +:+ format_field
                         ((fun u => Consumer.key (User.consumer u))
                            <$> G.user g)
                   +:+ ")")).
Proof.
  intros Hfetch Hfound Hauth Hbody Hperm Hdiff.
  assert (Hstep : forall A (k : option Response -> prog A),
    run handle
      (let* failure :=
         match <["id" := JStr id]>
                 (foldl (fun d field => delete field d) d
                    UPDATE_FILTER_FIELDS) !! "permissions" with
         | Some permissions =>
             if negb (py_eq permissions
                        (default (JDict ∅) (annotation !! "permissions")))
             then _check_action g request annotation "admin"
                    "permissions update"
             else Ret None
         | None => Ret None
         end in k failure) w2
    = run handle
        (let* failure :=
           _check_action g request annotation "admin" "permissions update"
         in k failure) w2).
  { intros A k. rewrite lookup_insert_ne by discriminate.
    rewrite lookup_pop_all. rewrite decide_False.
    - rewrite Hperm, Hdiff. reflexivity.
    - unfold UPDATE_FILTER_FIELDS. not_a_field. }
  assert (Hrun : run handle (update_annotation g request id) w
    = let '(ok, w3) :=
        handle (g_authorize annotation "admin" (G.user g)) w2 in
      let '(o, t, w') :=
        run handle
          (if negb ok
           then Ret (ViewResponse
                       (_failed_authz_response g request
                          "permissions update"))
           else
             let merged :=
               <["id" := JStr id]>
                 (foldl (fun d field => delete field d) d
                    UPDATE_FILTER_FIELDS) ∪ annotation in
             let* merged :=
               if G.has_before_annotation_update g
               then perform (g_before_annotation_update merged)
               else Ret merged in
             let* merged := perform (Annotation_save merged) in
             Ret (ViewResponse (jsonify request (JDict merged) 200))) w3 in
      (o,
       Annotation_fetch id
       :: g_authorize annotation "update" (G.user g)
       :: g_authorize annotation "admin" (G.user g) :: t, w')).
  { unfold update_annotation, _check_action at 1, perform. cbn.
    rewrite Hfetch. cbn in *. rewrite Hfound. cbn.
    rewrite Hauth. cbn. rewrite Hbody.
    rewrite (truthy_dict_lookup _ _ _ Hperm). cbn [_filter_input bind].
    rewrite Hstep. unfold _check_action, perform. cbn.
    destruct (handle (g_authorize annotation "admin" (G.user g)) w2)
      as [[|] w3]; cbn; [|reflexivity].
    destruct (G.has_before_annotation_update g); cbn.
    - destruct (handle (g_before_annotation_update _) w3) as [m w4]. cbn.
      destruct (handle (Annotation_save m) w4). reflexivity.
    - destruct (handle (Annotation_save _) w3). reflexivity. }
  split.
  - rewrite Hrun.
    destruct (handle (g_authorize annotation "admin" (G.user g)) w2)
      as [ok w3].
    destruct (run handle _ w3) as [[o t] w']. eauto.
  - intros w3 Hadmin. rewrite Hrun, Hadmin. cbn.
    eexists. split; [reflexivity|]. split; reflexivity.
Qed.

(** ** What an update merges *)

(** C3: an update with a JSON object as body that passes its checks
    (the admin check too, when the permissions differ) hands one merged
    annotation to the hook if there is one and to [save] otherwise, after
    calls that only fetch and authorize.  In the merged annotation
    [updated], [created], [user] and [consumer] are those of the stored
    annotation whatever the body said, [id] is the id of the URL, every
    other key of the body has the body's value and every key the body
    lacks has the stored value. *)
Theorem update_annotation_merge g request id annotation d w w1 w2 :
  handle (Annotation_fetch id) w = (Some annotation, w1) ->
  truthy (JDict annotation) = true ->
  handle (g_authorize annotation "update" (G.user g)) w1 = (true, w2) ->
  Request.json request = Some (JDict d) ->
  truthy (JDict d) = true ->
  (forall permissions,
     d !! "permissions" = Some permissions ->
     py_eq permissions (default (JDict ∅) (annotation !! "permissions"))
     = false ->
     (handle (g_authorize annotation "admin" (G.user g)) w2).1 = true) ->
  exists checks merged rest o w',
    run handle (update_annotation g request id) w
    = (o,
       checks
       ++ (if G.has_before_annotation_update g
           then g_before_annotation_update merged
           else Annotation_save merged) :: rest, w')
    /\ Forall is_check checks
    /\ (forall k, k ∈ UPDATE_FILTER_FIELDS -> merged !! k = annotation !! k)
    /\ merged !! "id" = Some (JStr id)
    /\ (forall k v,
        k ∉ UPDATE_FILTER_FIELDS -> d !! k = Some v -> k <> "id" ->
        merged !! k = Some v)
    /\ (forall k, d !! k = None -> k <> "id" ->
        merged !! k = annotation !! k).
Proof.
  intros Hfetch Hfound Hauth Hbody Htruthy Hadmin.
  set (updated := <["id" := JStr id]>
                    (foldl (fun d field => delete field d) d
                       UPDATE_FILTER_FIELDS)).
  assert (Hmerged :
    (forall k, k ∈ UPDATE_FILTER_FIELDS ->
       (updated ∪ annotation) !! k = annotation !! k)
    /\ (updated ∪ annotation) !! "id" = Some (JStr id)
    /\ (forall k v,
        k ∉ UPDATE_FILTER_FIELDS -> d !! k = Some v -> k <> "id" ->
        (updated ∪ annotation) !! k = Some v)
    /\ (forall k, d !! k = None -> k <> "id" ->
        (updated ∪ annotation) !! k = annotation !! k)).
  { unfold updated. repeat split.
    - intros k Hk. apply lookup_union_r.
      rewrite lookup_insert_ne.
      + rewrite lookup_pop_all, decide_True; [reflexivity|exact Hk].
      + intros <-. revert Hk. unfold UPDATE_FILTER_FIELDS. not_a_field.
    - apply lookup_union_Some_l, lookup_insert_eq.
    - intros k v Hk Hd Hid. apply lookup_union_Some_l.
      rewrite lookup_insert_ne by congruence.
      rewrite lookup_pop_all, decide_False; [exact Hd|exact Hk].
    - intros k Hd Hid. apply lookup_union_r.
      rewrite lookup_insert_ne by congruence.
      rewrite lookup_pop_all, Hd. destruct (decide _); reflexivity. }
  assert (Hperm : updated !! "permissions" = d !! "permissions").
  { unfold updated. rewrite lookup_insert_ne by discriminate.
    rewrite lookup_pop_all, decide_False; [reflexivity|].
    unfold UPDATE_FILTER_FIELDS. not_a_field. }
  assert (Hfinish : forall w3, exists rest o w',
    run handle
      (let* merged :=
         if G.has_before_annotation_update g
         then perform (g_before_annotation_update (updated ∪ annotation))
         else Ret (updated ∪ annotation) in
       let* merged := perform (Annotation_save merged) in
       Ret (ViewResponse (jsonify request (JDict merged) 200))) w3
    = (o,
       (if G.has_before_annotation_update g
        then g_before_annotation_update (updated ∪ annotation)
        else Annotation_save (updated ∪ annotation)) :: rest, w')).
  { intros w3. unfold perform.
    destruct (G.has_before_annotation_update g); cbn.
    - destruct (handle (g_before_annotation_update _) w3) as [m w4]. cbn.
      destruct (handle (Annotation_save m) w4). eauto.
    - destruct (handle (Annotation_save _) w3). eauto. }
  unfold update_annotation, _check_action at 1, perform. cbn.
  rewrite Hfetch. cbn in Hfound |- *. rewrite Hfound. cbn.
  rewrite Hauth. cbn. rewrite Hbody.
  change (negb (size d =? 0)) with (truthy (JDict d)). rewrite Htruthy.
  cbn [_filter_input bind]. fold updated. rewrite Hperm.
  destruct (d !! "permissions") as [permissions|] eqn:Hd.
  - destruct (py_eq permissions _) eqn:Hdiff; cbn [negb bind].
    + destruct (Hfinish w2) as (rest & o & w' & Hrun). rewrite_run Hrun.
      exists [Annotation_fetch id;
              g_authorize annotation "update" (G.user g)].
      exists (updated ∪ annotation), rest, o, w'.
      split; [reflexivity|]. split; [|exact Hmerged].
      repeat constructor.
    + specialize (Hadmin permissions eq_refl Hdiff).
      unfold _check_action, perform. cbn.
      destruct (handle (g_authorize annotation "admin" (G.user g)) w2)
        as [ok w3]. cbn in Hadmin. subst ok. cbn [negb bind].
      destruct (Hfinish w3) as (rest & o & w' & Hrun). rewrite_run Hrun.
      exists [Annotation_fetch id;
              g_authorize annotation "update" (G.user g);
              g_authorize annotation "admin" (G.user g)].
      exists (updated ∪ annotation), rest, o, w'.
      split; [reflexivity|]. split; [|exact Hmerged].
      repeat constructor.
  - cbn [bind]. destruct (Hfinish w2) as (rest & o & w' & Hrun).
    rewrite_run Hrun.
    exists [Annotation_fetch id;
            g_authorize annotation "update" (G.user g)].
    exists (updated ∪ annotation), rest, o, w'.
    split; [reflexivity|]. split; [|exact Hmerged].
    repeat constructor.
Qed.

(** ** What a create saves *)

(** The first call of an authenticated create with a JSON object as body
    is the save of the annotation built from it; without the hook it is
    the only call, and the answer is what [save] left of the annotation. *)
Lemma create_annotation_saves g request user d w :
  G.user g = Some user ->
  Request.json request = Some (JDict d) ->
  truthy (JDict d) = true ->
  let annotation :=
    <["consumer" := JStr (Consumer.key (User.consumer user))]>
      (foldl (fun d field => delete field d) d CREATE_FILTER_FIELDS) in
  let saved :=
    if negb (py_eq (_get_annotation_user annotation) (JStr (User.id user)))
    then <["user" := JStr (User.id user)]> annotation
    else annotation in
  exists rest o w',
    run handle (create_annotation g request) w
    = (o, Annotation_save saved :: rest, w')
    /\ (G.has_after_annotation_create g = false ->
        rest = []
        /\ exists r,
             o = Returned (ViewResponse r)
             /\ status r = 200%Z
             /\ data r = JDict (handle (Annotation_save saved) w).1).
Proof.
  intros Huser Hbody Htruthy annotation saved.
  unfold create_annotation. rewrite Huser, Hbody, Htruthy.
  cbn [_filter_input bind]. fold annotation. fold saved.
  unfold perform. cbn.
  destruct (handle (Annotation_save saved) w) as [stored w1]. cbn.
  destruct (G.has_after_annotation_create g); cbn.
  - destruct (handle (g_after_annotation_create stored) w1) as [m w2].
    cbn. destruct (handle (Annotation_save m) w2) as [stored' w3].
    do 3 eexists. split; [reflexivity|]. discriminate.
  - do 3 eexists. split; [reflexivity|]. intros _.
    split; [reflexivity|]. eexists. repeat split; reflexivity.
Qed.

(** A truthy body that is not a JSON object makes the create fail in
    [_filter_input], before any call. *)
Lemma create_annotation_not_an_object g request user body w :
  G.user g = Some user ->
  Request.json request = Some body ->
  truthy body = true ->
  (forall d, body <> JDict d) ->
  exists e,
    run handle (create_annotation g request) w = (Raised e, [], w).
Proof.
  intros Huser Hbody Htruthy Hkind.
  unfold create_annotation. rewrite Huser, Hbody, Htruthy.
  destruct body; cbn; eauto.
  exfalso. eapply Hkind. reflexivity.
Qed.

(** C7: in an authenticated create with a JSON object as body, the
    annotation handed to [save] has no [updated] and no [created], its
    [consumer] is the key of the caller's consumer, whatever the body
    said of the three, and every other key than [user] is as in the body.
    That save is the first call, and the only one when no hook is
    registered. *)
Theorem create_annotation_filters g request user d w :
  G.user g = Some user ->
  Request.json request = Some (JDict d) ->
  truthy (JDict d) = true ->
  exists saved rest o w',
    run handle (create_annotation g request) w
    = (o, Annotation_save saved :: rest, w')
    /\ saved !! "updated" = None
    /\ saved !! "created" = None
    /\ saved !! "consumer"
       = Some (JStr (Consumer.key (User.consumer user)))
    /\ (forall k,
        k ∉ CREATE_FILTER_FIELDS -> k <> "user" -> saved !! k = d !! k)
    /\ (G.has_after_annotation_create g = false -> rest = []).
Proof.
  intros Huser Hbody Htruthy.
  destruct (create_annotation_saves g request user d w Huser Hbody Htruthy)
    as (rest & o & w' & Hrun & Hrest).
  set (annotation :=
         <["consumer" := JStr (Consumer.key (User.consumer user))]>
           (foldl (fun d field => delete field d) d CREATE_FILTER_FIELDS))
    in *.
  assert (Hframe : forall k (saved : Annotation),
    saved = <["user" := JStr (User.id user)]> annotation
    \/ saved = annotation ->
    k <> "user" -> saved !! k = annotation !! k).
  { intros k saved [-> | ->] Hk; [|reflexivity].
    apply lookup_insert_ne. congruence. }
  eexists _, rest, o, w'. split; [exact Hrun|].
  match goal with
  | |- context [(if ?b then _ else _) !! _] =>
      assert (Hsaved :
        (if b then <["user" := JStr (User.id user)]> annotation
         else annotation)
        = <["user" := JStr (User.id user)]> annotation
        \/ (if b then <["user" := JStr (User.id user)]> annotation
            else annotation) = annotation)
        by (destruct b; auto)
  end.
  repeat split.
  - rewrite (Hframe _ _ Hsaved) by discriminate. unfold annotation.
    rewrite lookup_insert_ne by discriminate.
    rewrite lookup_pop_all. reflexivity.
  - rewrite (Hframe _ _ Hsaved) by discriminate. unfold annotation.
    rewrite lookup_insert_ne by discriminate.
    rewrite lookup_pop_all. reflexivity.
  - rewrite (Hframe _ _ Hsaved) by discriminate. unfold annotation.
    apply lookup_insert_eq.
  - intros k Hk Huserk. rewrite (Hframe _ _ Hsaved) by exact Huserk.
    unfold annotation. rewrite lookup_insert_ne.
    + rewrite lookup_pop_all, decide_False; [reflexivity|exact Hk].
    + intros <-. apply Hk. unfold CREATE_FILTER_FIELDS.
      do 2 right. left.
  - intros Hhook. apply Hrest. exact Hhook.
Qed.


(** ** Search *)

(** The criteria of a search, key by key, and the run of the view. *)
Lemma search_annotations_run request w :
  exists kwargs : gmap string criterion,
    (forall k,
       kwargs !! k
       = match Request.args request !! k with
         | Some s =>
             Some (if decide (k = "limit")
                   then CInt (default 20%Z (py_int s))
                   else if decide (k = "offset")
                        then CInt (default 0%Z (py_int s))
                        else CStr s)
         | None => None
         end)
    /\ run handle (search_annotations request) w
       = let '(results, w1) := handle (Annotation_search kwargs) w in
         let '(total, w2) := handle (Annotation_count kwargs) w1 in
         (Returned
            (ViewResponse
               (jsonify request
                  (JDict (<["total" := JInt total]>
                            (<["rows" := JList (JDict <$> results)]> ∅)))
                  200)),
          [Annotation_search kwargs; Annotation_count kwargs], w2).
Proof.
  unfold search_annotations.
  set (kwargs0 := CStr <$> Request.args request).
  set (kwargs1 := match kwargs0 !! "offset" with
                  | Some offset =>
                      <["offset" := CInt (_quiet_int offset 0)]> kwargs0
                  | None => kwargs0
                  end).
  set (kwargs := match kwargs1 !! "limit" with
                 | Some limit =>
                     <["limit" := CInt (_quiet_int limit 20)]> kwargs1
                 | None => kwargs1
                 end).
  exists kwargs. split.
  - assert (H0 : forall k, kwargs0 !! k = CStr <$> Request.args request !! k)
      by (intros k; apply lookup_fmap).
    assert (H1 : forall k,
      kwargs1 !! k
      = match Request.args request !! k with
        | Some s => Some (if decide (k = "offset")
                          then CInt (default 0%Z (py_int s))
                          else CStr s)
        | None => None
        end).
    { intros k. unfold kwargs1. rewrite (H0 "offset").
      destruct (Request.args request !! "offset") as [s0|] eqn:Hoff; cbn.
      - destruct (decide (k = "offset")) as [->|Hk].
        + rewrite lookup_insert_eq, Hoff. reflexivity.
        + rewrite lookup_insert_ne by congruence. rewrite H0.
          destruct (Request.args request !! k); reflexivity.
      - rewrite H0. destruct (decide (k = "offset")) as [->|Hk].
        + rewrite Hoff. reflexivity.
        + destruct (Request.args request !! k); reflexivity. }
    intros k. unfold kwargs. rewrite (H1 "limit").
    destruct (Request.args request !! "limit") as [s0|] eqn:Hlim; cbn.
    + destruct (decide (k = "limit")) as [->|Hk].
      * rewrite lookup_insert_eq, Hlim. reflexivity.
      * rewrite lookup_insert_ne by congruence. apply H1.
    + rewrite H1. destruct (decide (k = "limit")) as [->|Hk].
      * rewrite Hlim. reflexivity.
      * reflexivity.
  - unfold perform. cbn.
    destruct (handle (Annotation_search kwargs) w) as [results w1]. cbn.
    destruct (handle (Annotation_count kwargs) w1) as [total w2].
    reflexivity.
Qed.



(** Against a storage that reads a missing limit as 20, in search and in
    count, the unparsable limit and the omitted one are answered alike;
    the calls still differ by the limit criterion. *)
Lemma search_limit_default request args s w :
  py_int s = None ->
  args !! "limit" = None ->
  (forall kwargs w0 (results : list Annotation) w1,
     kwargs !! "limit" = None ->
     handle (Annotation_search kwargs) w0 = (results, w1) ->
     handle (Annotation_search (<["limit" := CInt 20]> kwargs)) w0
     = (results, w1)) ->
  (forall kwargs w0 (total : Z) w1,
     kwargs !! "limit" = None ->
     handle (Annotation_count kwargs) w0 = (total, w1) ->
     handle (Annotation_count (<["limit" := CInt 20]> kwargs)) w0
     = (total, w1)) ->
  exists kwargs o w',
    kwargs !! "limit" = None
    /\ run handle
         (search_annotations
            (with_query request (<["limit" := s]> args))) w
       = (o,
          [Annotation_search (<["limit" := CInt 20]> kwargs);
           Annotation_count (<["limit" := CInt 20]> kwargs)], w')
    /\ run handle (search_annotations (with_query request args)) w
       = (o, [Annotation_search kwargs; Annotation_count kwargs], w').
Proof.
  intros Hs Hnone Hsearch Hcount.
  destruct (search_annotations_run
              (with_query request (<["limit" := s]> args)) w)
    as (kwargs' & Hk' & Hrun').
  destruct (search_annotations_run (with_query request args) w)
    as (kwargs & Hk & Hrun).
  assert (Hlimit : kwargs !! "limit" = None).
  { rewrite Hk. cbn. rewrite Hnone. reflexivity. }
  assert (Heq : kwargs' = <["limit" := CInt 20]> kwargs).
  { apply map_eq. intros k. rewrite Hk'. cbn.
    destruct (decide (k = "limit")) as [->|Hne].
    - rewrite !lookup_insert_eq, Hs. reflexivity.
    - rewrite !lookup_insert_ne by congruence. rewrite Hk.
      destruct (decide (k = "limit")); [contradiction|reflexivity]. }
  rewrite Heq in Hrun'.
  destruct (handle (Annotation_search kwargs) w) as [results w1] eqn:Es.
  rewrite (Hsearch kwargs w results w1 Hlimit Es) in Hrun'.
  destruct (handle (Annotation_count kwargs) w1) as [total w2] eqn:Ec.
  rewrite (Hcount kwargs w1 total w2 Hlimit Ec) in Hrun'.
  exists kwargs. do 2 eexists. split; [exact Hlimit|].
  split; [exact Hrun'|exact Hrun].
Qed.

(** ** Refusals *)

Lemma ensures_run {A} (p : prog A) P w a t w' :
  ensures P p ->
  run handle p w = (Returned a, t, w') ->
  P t a.
Proof.
  revert P w t. induction p as [b|e|c k IH]; intros P w t Hp Hrun.
  - cbn in *. injection Hrun as -> <- _. exact Hp.
  - discriminate Hrun.
  - cbn in *. destruct (handle c w) as [x w1].
    destruct (run handle (k x) w1) as [[o t1] w2] eqn:Hk.
    injection Hrun as -> <- ->.
    exact (IH x _ w1 t1 (Hp x) Hk).
Qed.

(** C6, as the views have it: a 401 answer carries as JSON text the
    message below, with the caller's id and consumer key, or [None] twice
    for an anonymous caller.  The message names what was attempted in two
    cases only: a create without identity, which makes no call, and a
    refused admin check; after a refused read, update or delete check the
    message has no such part. *)
Theorem unauthorized_message g request route w r t w' :
  run handle (store g request route) w = (Returned (ViewResponse r), t, w') ->
  status r = 401%Z ->
  exists context message,
    data r = JStr message
    /\ message
       = "Cannot authorize request" +:+ context
         +:+ ". Perhaps you're not logged in as a user with "
         +:+ "appropriate permissions on this annotation? "
         +:+ "(user=" +:+ format_field (User.id <$> G.user g)
         +:+ ", consumer="
         +:+ format_field
               ((fun u => Consumer.key (User.consumer u)) <$> G.user g)
         +:+ ")"
    /\ contains (format_field (User.id <$> G.user g)) message = true
    /\ contains
         (format_field
            ((fun u => Consumer.key (User.consumer u)) <$> G.user g))
         message = true
    /\ ((route = POST_annotations /\ G.user g = None /\ t = []
         /\ context = " (create annotation)")
        \/ (exists annotation,
              last t = Some (g_authorize annotation "admin" (G.user g))
              /\ context = " (permissions update)")
        \/ (exists annotation action,
              last t = Some (g_authorize annotation action (G.user g))
              /\ action ∈ ["read"; "update"; "delete"]
              /\ context = "")).
Proof.
  intros Hrun Hstatus.
  set (uid := format_field (User.id <$> G.user g)).
  set (key := format_field
                ((fun u => Consumer.key (User.consumer u)) <$> G.user g)).
  set (text := fun context =>
         "Cannot authorize request" +:+ context
         +:+ ". Perhaps you're not logged in as a user with "
         +:+ "appropriate permissions on this annotation? "
         +:+ "(user=" +:+ uid +:+ ", consumer=" +:+ key +:+ ")").
  assert (Huid : forall context, contains uid (text context) = true).
  { intros context. unfold text.
    do 4 apply contains_prepend. apply contains_append. }
  assert (Hkey : forall context, contains key (text context) = true).
  { intros context. unfold text.
    do 6 apply contains_prepend. apply contains_append. }
  set (P := fun (t : list call) (v : view) =>
         forall r, v = ViewResponse r -> status r = 401%Z ->
         exists context,
           data r = JStr (text context)
           /\ ((route = POST_annotations /\ G.user g = None /\ t = []
                /\ context = " (create annotation)")
               \/ (exists annotation,
                     last t
                     = Some (g_authorize annotation "admin" (G.user g))
                     /\ context = " (permissions update)")
               \/ (exists annotation action,
                     last t
                     = Some (g_authorize annotation action (G.user g))
                     /\ action ∈ ["read"; "update"; "delete"]
                     /\ context = ""))).
  assert (Hens : ensures P (store g request route)).
  { destruct route; cbn [store].
    - intros r' [= <-] Hs. discriminate Hs.
    - intros results r' [= <-] Hs. discriminate Hs.
    - unfold create_annotation.
      destruct (G.user g) as [user|] eqn:Huser.
      + destruct (Request.json request) as [body|];
          [destruct (truthy body)|];
          try (intros r' [= <-] Hs; discriminate Hs).
        destruct body; try exact I. cbn [_filter_input bind].
        unfold perform. cbn [bind ensures]. intros stored.
        destruct (G.has_after_annotation_create g); cbn [bind ensures].
        * intros hooked stored' r' [= <-] Hs. discriminate Hs.
        * intros r' [= <-] Hs. discriminate Hs.
      + intros r' [= <-] _. exists " (create annotation)".
        split; [|left; auto].
        unfold _failed_authz_response. rewrite Huser. reflexivity.
    - unfold read_annotation, _check_action, perform.
      cbn [bind ensures]. intros fetched.
      destruct (found fetched) as [annotation|]; cbn [bind ensures];
        [|intros r' [= <-] Hs; discriminate Hs].
      intros [|]; cbn [negb bind ensures]; intros r' [= <-] Hs;
        [discriminate Hs|].
      exists "". split; [reflexivity|]. do 2 right.
      exists annotation, "read". repeat split. left.
    - unfold update_annotation, _check_action, perform.
      cbn [bind ensures]. intros fetched.
      destruct (found fetched) as [annotation|]; cbn [bind ensures];
        [|intros r' [= <-] Hs; discriminate Hs].
      intros [|]; cbn [negb bind ensures].
      + destruct (Request.json request) as [body|];
          [destruct (truthy body)|];
          try (intros r' [= <-] Hs; discriminate Hs).
        destruct body; try exact I. cbn [_filter_input bind].
        assert (Hsave : forall (checks : list call) (m : Annotation),
          ensures (fun t a => P (checks ++ t) a)
            (let* merged :=
               if G.has_before_annotation_update g
               then Do (g_before_annotation_update m) Ret
               else Ret m in
             let* merged := Do (Annotation_save merged) Ret in
             Ret (ViewResponse (jsonify request (JDict merged) 200)))).
        { intros checks m. destruct (G.has_before_annotation_update g);
            cbn [bind ensures].
          - intros hooked stored r' [= <-] Hs. discriminate Hs.
          - intros stored r' [= <-] Hs. discriminate Hs. }
        destruct (_ !! "permissions") as [permissions|];
          [destruct (py_eq permissions _)|]; cbn [negb bind ensures].
        * exact (Hsave [_; _] _).
        * intros [|]; cbn [negb bind ensures].
          -- exact (Hsave [_; _; _] _).
          -- intros r' [= <-] _. exists " (permissions update)".
             split; [reflexivity|]. right. left.
             exists annotation. split; reflexivity.
        * exact (Hsave [_; _] _).
      + intros r' [= <-] _. exists "". split; [reflexivity|].
        do 2 right. exists annotation, "update". repeat split.
        right. left.
    - unfold delete_annotation, _check_action, perform.
      cbn [bind ensures]. intros fetched.
      destruct (found fetched) as [annotation|]; cbn [bind ensures];
        [|intros r' [= <-] Hs; discriminate Hs].
      intros [|]; cbn [negb bind ensures].
      + intros _ r' [=].
      + intros r' [= <-] _. exists "". split; [reflexivity|].
        do 2 right. exists annotation, "delete". repeat split.
        do 2 right. left.
    - unfold search_annotations, perform. cbn [bind ensures].
      intros results total r' [= <-] Hs. discriminate Hs. }
  destruct (ensures_run _ _ _ _ _ _ Hens Hrun r eq_refl Hstatus)
    as (context & Hdata & Hwhere).
  exists context, (text context).
  split; [exact Hdata|]. split; [reflexivity|].
  split; [apply Huid|]. split; [apply Hkey|exact Hwhere].
Qed.
End Properties.

(** * The properties at work

    The views run in the [Memory] environment: the annotation "42" is on
    the shelf, Alice is the caller. *)

Lemma create_annotation_anonymous_witness :
  exists r,
    run Memory.handle
      (create_annotation (Memory.as_user None)
         (Memory.with_body (Some (JDict Memory.forged))))
      (Memory.shelf [])
    = (Returned (ViewResponse r), [], Memory.shelf [])
    /\ status r = 401%Z.
Proof.
  apply (create_annotation_anonymous Memory.handle). reflexivity.
Defined.

Lemma update_annotation_without_body_witness :
  exists r,
    run Memory.handle
      (update_annotation (Memory.as_user (Some Memory.alice))
         (Memory.with_body None) "42")
      (Memory.shelf ["update"])
    = (Returned (ViewResponse r),
       [Annotation_fetch "42";
        g_authorize Memory.note "update" (Some Memory.alice)],
       Memory.shelf ["update"])
    /\ status r = 200%Z
    /\ data r = JDict Memory.note.
Proof.
  apply (update_annotation_without_body Memory.handle
           (Memory.as_user (Some Memory.alice)) (Memory.with_body None)
           "42" Memory.note (Memory.shelf ["update"])
           (Memory.shelf ["update"]) (Memory.shelf ["update"])).
  - reflexivity.
  - reflexivity.
  - reflexivity.
  - reflexivity.
Defined.

Lemma falsy_body_as_absent_witness :
  exists r,
    run Memory.handle
      (create_annotation (Memory.as_user (Some Memory.alice))
         (Memory.with_body (Some (JDict ∅))))
      (Memory.shelf [])
    = (Returned (ViewResponse r), [], Memory.shelf [])
    /\ status r = 400%Z.
Proof.
  destruct (falsy_body_as_absent Memory.handle
              (Memory.as_user (Some Memory.alice))
              (Memory.with_body (Some (JDict ∅))) "42" (JDict ∅)
              (Memory.shelf []))
    as (_ & _ & Hcreate & _).
  - reflexivity.
  - reflexivity.
  - apply (Hcreate Memory.alice). reflexivity.
Defined.

Lemma update_permissions_needs_admin_witness :
  exists r,
    run Memory.handle
      (update_annotation (Memory.as_user (Some Memory.alice))
         (Memory.with_body (Some (JDict Memory.opened))) "42")
      (Memory.shelf ["update"])
    = (Returned (ViewResponse r),
       [Annotation_fetch "42";
        g_authorize Memory.note "update" (Some Memory.alice);
        g_authorize Memory.note "admin" (Some Memory.alice)],
       Memory.shelf ["update"])
    /\ status r = 401%Z.
Proof.
  destruct (update_permissions_needs_admin Memory.handle
              (Memory.as_user (Some Memory.alice))
              (Memory.with_body (Some (JDict Memory.opened))) "42"
              Memory.note Memory.opened
              (JDict (<["read" := JList [JStr "mallory"]]> ∅))
              (Memory.shelf ["update"]) (Memory.shelf ["update"])
              (Memory.shelf ["update"]))
    as [_ Hrefused].
  - reflexivity.
  - reflexivity.
  - reflexivity.
  - reflexivity.
  - reflexivity.
  - vm_compute. reflexivity.
  - destruct (Hrefused (Memory.shelf ["update"]) eq_refl)
      as (r & Hrun & Hstatus & _).
    exists r. split; [exact Hrun|exact Hstatus].
Defined.

Lemma update_annotation_merge_witness :
  exists checks merged rest o w',
    run Memory.handle
      (update_annotation (Memory.as_user (Some Memory.alice))
         (Memory.with_body (Some (JDict Memory.forged))) "42")
      (Memory.shelf ["update"])
    = (o, checks ++ Annotation_save merged :: rest, w')
    /\ merged !! "id" = Some (JStr "42")
    /\ merged !! "user" = Some (JStr "alice")
    /\ merged !! "created" = None
    /\ merged !! "text" = Some (JStr "hi")
    /\ merged !! "permissions" = Some (JDict ∅).
Proof.
  destruct (update_annotation_merge Memory.handle
              (Memory.as_user (Some Memory.alice))
              (Memory.with_body (Some (JDict Memory.forged))) "42"
              Memory.note Memory.forged
              (Memory.shelf ["update"]) (Memory.shelf ["update"])
              (Memory.shelf ["update"]))
    as (checks & merged & rest & o & w' & Hrun & _ & Hstripped & Hid
        & Hbody & Hstored).
  - reflexivity.
  - reflexivity.
  - reflexivity.
  - reflexivity.
  - reflexivity.
  - intros permissions Hnone. vm_compute in Hnone. discriminate Hnone.
  - exists checks, merged, rest, o, w'. split; [exact Hrun|].
    split; [exact Hid|]. split.
    + rewrite (Hstripped "user"); [reflexivity|]. do 2 right. left.
    + split.
      * rewrite (Hstripped "created"); [reflexivity|]. right. left.
      * split.
        -- apply Hbody; [|reflexivity|discriminate].
           unfold UPDATE_FILTER_FIELDS. not_a_field.
        -- rewrite (Hstored "permissions"); [reflexivity|reflexivity|].
           discriminate.
Defined.

Lemma create_annotation_filters_witness :
  exists saved rest o w',
    run Memory.handle
      (create_annotation (Memory.as_user (Some Memory.alice))
         (Memory.with_body (Some (JDict Memory.forged))))
      (Memory.shelf [])
    = (o, Annotation_save saved :: rest, w')
    /\ saved !! "created" = None
    /\ saved !! "consumer" = Some (JStr "notes-app")
    /\ saved !! "text" = Some (JStr "hi")
    /\ rest = [].
Proof.
  destruct (create_annotation_filters Memory.handle
              (Memory.as_user (Some Memory.alice))
              (Memory.with_body (Some (JDict Memory.forged)))
              Memory.alice Memory.forged (Memory.shelf []))
    as (saved & rest & o & w' & Hrun & _ & Hcreated & Hconsumer & Hbody
        & Hrest).
  - reflexivity.
  - reflexivity.
  - reflexivity.
  - exists saved, rest, o, w'. split; [exact Hrun|].
    split; [exact Hcreated|]. split; [exact Hconsumer|]. split.
    + rewrite Hbody; [reflexivity| |discriminate].
      unfold CREATE_FILTER_FIELDS. not_a_field.
    + apply Hrest. reflexivity.
Defined.




Lemma unauthorized_message_witness :
  exists r t w' message,
    run Memory.handle
      (store (Memory.as_user (Some Memory.alice))
         (Memory.with_body (Some (JDict Memory.opened)))
         (PUT_annotation "42"))
      (Memory.shelf ["update"])
    = (Returned (ViewResponse r), t, w')
    /\ data r = JStr message
    /\ contains "alice" message = true
    /\ contains "notes-app" message = true.
Proof.
  edestruct (unauthorized_message Memory.handle
               (Memory.as_user (Some Memory.alice))
               (Memory.with_body (Some (JDict Memory.opened)))
               (PUT_annotation "42") (Memory.shelf ["update"]))
    as (context & message & Hdata & _ & Huser & Hconsumer & _).
  - vm_compute. reflexivity.
  - reflexivity.
  - do 3 eexists. exists message. split; [reflexivity|].
    split; [exact Hdata|]. split; [exact Huser|exact Hconsumer].
Defined.

(** * Concrete runs against the stated behaviour *)


(** C6, as stated, at a refused read: the answer is 401 and its message
    does not name the action; it is the very message of a refused update
    or delete. *)
Lemma read_refusal_counterexample :
  exists r t w' message,
    run Memory.handle
      (store (Memory.as_user (Some Memory.alice)) (Memory.with_body None)
         (GET_annotation "42"))
      (Memory.shelf [])
    = (Returned (ViewResponse r), t, w')
    /\ status r = 401%Z
    /\ t = [Annotation_fetch "42";
            g_authorize Memory.note "read" (Some Memory.alice)]
    /\ data r = JStr message
    /\ message
       = "Cannot authorize request. Perhaps you're not logged in as a "
         +:+ "user with appropriate permissions on this annotation? "
         +:+ "(user=alice, consumer=notes-app)"
    /\ contains "read" message = false.
Proof.
  do 4 eexists. split; [vm_compute; reflexivity|].
  split; [reflexivity|]. split; [vm_compute; reflexivity|].
  split; [reflexivity|]. split; vm_compute; reflexivity.
Qed.

(** * Further properties of the views *)

Section Further.
Context {W : Type} (handle : forall c : call, W -> answer c * W).
Implicit Types (w : W) (g : G.t) (request : Request.t).
Implicit Types (annotation : Annotation) (id : string).

(** ** Reading and deleting *)

(** X1: an annotation that is found and may be read is returned as it was
    fetched, with status 200, after the fetch and the check. *)
Theorem read_annotation_found g request id annotation w w1 w2 :
  handle (Annotation_fetch id) w = (Some annotation, w1) ->
  truthy (JDict annotation) = true ->
  handle (g_authorize annotation "read" (G.user g)) w1 = (true, w2) ->
  exists r,
    run handle (read_annotation g request id) w
    = (Returned (ViewResponse r),
       [Annotation_fetch id; g_authorize annotation "read" (G.user g)], w2)
    /\ status r = 200%Z
    /\ data r = JDict annotation.
Proof.
  intros Hfetch Hfound Hauth.
  unfold read_annotation, _check_action, perform. cbn.
  rewrite Hfetch. cbn in Hfound |- *. rewrite Hfound. cbn.
  rewrite Hauth. cbn.
  eexists. split; [reflexivity|]. split; reflexivity.
Qed.

(** X2: when the fetch gives nothing, or an annotation without any key, the
    read, update and delete views answer 404 with their own message, and
    the fetch is their only call: no authorization is asked. *)
Theorem annotation_not_found g request id fetched w w1 :
  handle (Annotation_fetch id) w = (fetched, w1) ->
  fetched = None \/ fetched = Some ∅ ->
  forall route message,
    (route, message)
    ∈ [(GET_annotation id, "Annotation not found!");
       (PUT_annotation id, "Annotation not found! No update performed.");
       (DELETE_annotation id,
        "Annotation not found. No delete performed.")] ->
    exists r,
      run handle (store g request route) w
      = (Returned (ViewResponse r), [Annotation_fetch id], w1)
      /\ status r = 404%Z
      /\ data r = JStr message.
Proof.
  intros Hfetch Hnone route message Hroute.
  assert (Hfound : found fetched = None).
  { destruct Hnone as [-> | ->]; reflexivity. }
  repeat (apply elem_of_cons in Hroute as [[= -> ->]|Hroute]);
    [| | |exfalso; exact (proj1 (elem_of_nil _) Hroute)];
    cbn [store];
    unfold read_annotation, update_annotation, delete_annotation, perform;
    cbn; rewrite Hfetch, Hfound; cbn;
    (eexists; split; [reflexivity|]; split; reflexivity).
Qed.

(** X3: when the authorization of the read, the update or the delete is
    refused, the view answers 401 and stops there: the fetch and the check
    are its only calls, whatever the body of the request. *)
Theorem annotation_check_refused g request id annotation w w1 :
  handle (Annotation_fetch id) w = (Some annotation, w1) ->
  truthy (JDict annotation) = true ->
  forall route action w2,
    (route, action)
    ∈ [(GET_annotation id, "read"); (PUT_annotation id, "update");
       (DELETE_annotation id, "delete")] ->
    handle (g_authorize annotation action (G.user g)) w1 = (false, w2) ->
    exists r,
      run handle (store g request route) w
      = (Returned (ViewResponse r),
         [Annotation_fetch id; g_authorize annotation action (G.user g)],
         w2)
      /\ status r = 401%Z.
Proof.
  intros Hfetch Hfound route action w2 Hroute Hauth.
  cbn in Hfound.
  repeat (apply elem_of_cons in Hroute as [[= -> ->]|Hroute]);
    [| | |exfalso; exact (proj1 (elem_of_nil _) Hroute)];
    cbn [store];
    unfold read_annotation, update_annotation, delete_annotation,
      _check_action, perform;
    cbn; rewrite Hfetch; cbn; rewrite Hfound; cbn; rewrite Hauth; cbn;
    (eexists; split; [reflexivity|reflexivity]).
Qed.

(** X4: a delete that is found and allowed deletes the very annotation
    that was fetched, as its third and last call, and returns the pair
    [(None, 204)]. *)
Theorem delete_annotation_deletes g request id annotation w w1 w2 :
  handle (Annotation_fetch id) w = (Some annotation, w1) ->
  truthy (JDict annotation) = true ->
  handle (g_authorize annotation "delete" (G.user g)) w1 = (true, w2) ->
  run handle (delete_annotation g request id) w
  = (Returned (ViewTuple None 204),
     [Annotation_fetch id; g_authorize annotation "delete" (G.user g);
      Annotation_delete annotation],
     (handle (Annotation_delete annotation) w2).2).
Proof.
  intros Hfetch Hfound Hauth.
  unfold delete_annotation, _check_action, perform. cbn.
  rewrite Hfetch. cbn in Hfound |- *. rewrite Hfound. cbn.
  rewrite Hauth. cbn.
  destruct (handle (Annotation_delete annotation) w2) as [[] w3].
  reflexivity.
Qed.
(** ** Updating *)

(** X5: an update whose body says nothing of the permissions, or gives
    permissions equal to the stored ones, asks for no admin check.  Without
    a hook its calls are the fetch, the update check and one save, and the
    answer is 200 with the annotation as [save] left it. *)
Theorem update_annotation_same_permissions
    g request id annotation d w w1 w2 :
  handle (Annotation_fetch id) w = (Some annotation, w1) ->
  truthy (JDict annotation) = true ->
  handle (g_authorize annotation "update" (G.user g)) w1 = (true, w2) ->
  Request.json request = Some (JDict d) ->
  truthy (JDict d) = true ->
  (d !! "permissions" = None
   \/ exists permissions,
        d !! "permissions" = Some permissions
        /\ py_eq permissions
             (default (JDict ∅) (annotation !! "permissions")) = true) ->
  G.has_before_annotation_update g = false ->
  exists merged stored w3 r,
    handle (Annotation_save merged) w2 = (stored, w3)
    /\ run handle (update_annotation g request id) w
       = (Returned (ViewResponse r),
          [Annotation_fetch id;
           g_authorize annotation "update" (G.user g);
           Annotation_save merged], w3)
    /\ status r = 200%Z
    /\ data r = JDict stored.
Proof.
  intros Hfetch Hfound Hauth Hbody Htruthy Hperm Hhook.
  set (updated := <["id" := JStr id]>
                    (foldl (fun d field => delete field d) d
                       UPDATE_FILTER_FIELDS)).
  assert (Hsame : updated !! "permissions" = d !! "permissions").
  { unfold updated. rewrite lookup_insert_ne by discriminate.
    rewrite lookup_pop_all, decide_False; [reflexivity|].
    unfold UPDATE_FILTER_FIELDS. not_a_field. }
  destruct (handle (Annotation_save (updated ∪ annotation)) w2)
    as [stored w3] eqn:Hsave.
  exists (updated ∪ annotation), stored, w3.
  exists (jsonify request (JDict stored) 200).
  split; [exact Hsave|]. split; [|split; reflexivity].
  unfold update_annotation, _check_action at 1, perform. cbn.
  rewrite Hfetch. cbn in Hfound |- *. rewrite Hfound. cbn.
  rewrite Hauth. cbn. rewrite Hbody.
  change (negb (size d =? 0)) with (truthy (JDict d)). rewrite Htruthy.
  cbn [_filter_input bind]. fold updated. rewrite Hsame, Hhook.
  destruct Hperm as [-> | (permissions & -> & ->)];
    cbn [negb bind run]; rewrite Hsave; reflexivity.
Qed.


(** ** Creating *)

(** X7: with the hook registered, a create saves the annotation it built,
    hands the annotation as [save] left it to the hook, saves what the hook
    made of it, and answers 200 with the annotation as the second [save]
    left it. *)
Theorem create_annotation_through_hook g request user d w :
  G.user g = Some user ->
  Request.json request = Some (JDict d) ->
  truthy (JDict d) = true ->
  G.has_after_annotation_create g = true ->
  exists built stored w1 adjusted w2 stored' w3 r,
    handle (Annotation_save built) w = (stored, w1)
    /\ handle (g_after_annotation_create stored) w1 = (adjusted, w2)
    /\ handle (Annotation_save adjusted) w2 = (stored', w3)
    /\ run handle (create_annotation g request) w
       = (Returned (ViewResponse r),
          [Annotation_save built;
           g_after_annotation_create stored;
           Annotation_save adjusted], w3)
    /\ status r = 200%Z
    /\ data r = JDict stored'.
Proof.
  intros Huser Hbody Htruthy Hhook.
  unfold create_annotation. rewrite Huser, Hbody, Htruthy, Hhook.
  cbn [_filter_input bind].
  match goal with
  | |- context [perform (Annotation_save ?a)] => set (built := a)
  end.
  destruct (handle (Annotation_save built) w) as [stored w1] eqn:Hsave.
  destruct (handle (g_after_annotation_create stored) w1)
    as [adjusted w2] eqn:Hadjust.
  destruct (handle (Annotation_save adjusted) w2) as [stored' w3] eqn:Hsave'.
  exists built, stored, w1, adjusted, w2, stored', w3.
  exists (jsonify request (JDict stored') 200).
  split; [exact Hsave|]. split; [exact Hadjust|]. split; [exact Hsave'|].
  split; [|split; reflexivity].
  unfold perform. cbn [bind run]. rewrite Hsave. cbn [bind run].
  rewrite Hadjust. cbn [bind run]. rewrite Hsave'. reflexivity.
Qed.

(** X8: for a caller whose id is not the empty text, the owner that
    [_get_annotation_user] guesses from the annotation a create saves is
    the caller's id. *)
Theorem create_annotation_owner g request user d w :
  G.user g = Some user ->
  Request.json request = Some (JDict d) ->
  truthy (JDict d) = true ->
  User.id user <> "" ->
  exists saved rest o w',
    run handle (create_annotation g request) w
    = (o, Annotation_save saved :: rest, w')
    /\ _get_annotation_user saved = JStr (User.id user).
Proof.
  intros Huser Hbody Htruthy Hid.
  destruct (create_annotation_saves handle g request user d w
              Huser Hbody Htruthy) as (rest & o & w' & Hrun & _).
  eexists _, rest, o, w'. split; [exact Hrun|].
  destruct (py_eq _ (JStr (User.id user))) eqn:Hguess; cbn [negb].
  - apply py_eq_str. exact Hguess.
  - unfold _get_annotation_user. rewrite lookup_insert_eq. cbn.
    destruct (User.id user) as [|c s]; [congruence|reflexivity].
Qed.
(** ** What every view answers *)

Lemma always_run {A} (p : prog A) P w o t w' :
  always P p ->
  run handle p w = (o, t, w') ->
  P t o.
Proof.
  revert P w t. induction p as [b|e|c k IH]; intros P w t Hp Hrun.
  - cbn in *. injection Hrun as <- <- _. exact Hp.
  - cbn in *. injection Hrun as <- <- _. exact Hp.
  - cbn in *. destruct (handle c w) as [x w1].
    destruct (run handle (k x) w1) as [[o1 t1] w2] eqn:Hk.
    injection Hrun as <- <- <-.
    exact (IH x _ w1 t1 (Hp x) Hk).
Qed.

(** The outcome and the calls of a route, whatever the collaborators
    answer. *)
Lemma store_always g request route :
  always
    (fun t o =>
       match o with
       | Returned (ViewResponse r) =>
           (status r = 200 \/ status r = 400 \/ status r = 401
            \/ status r = 404)%Z
           /\ mimetype r = "application/json"
           /\ indent r
              = (if Request.is_xhr request then None else Some 2%Z)
           /\ (status r <> 200%Z -> exists message, data r = JStr message)
       | Returned (ViewTuple rv code) =>
           rv = None /\ code = 204%Z
           /\ exists id, route = DELETE_annotation id
       | Raised e =>
           exists body,
             Request.json request = Some body
             /\ truthy body = true
             /\ (forall d, body <> JDict d)
             /\ e = match body with
                    | JList _ => TypeError
                    | _ => AttributeError
                    end
             /\ ((route = POST_annotations /\ t = [])
                 \/ exists id annotation,
                      route = PUT_annotation id
                      /\ t = [Annotation_fetch id;
                              g_authorize annotation "update" (G.user g)])
       end
       /\ (match route with
           | POST_annotations | PUT_annotation _ | DELETE_annotation _ =>
               False
           | _ => True
           end ->
           Forall is_read t /\ exists v, o = Returned v))
    (store g request route).
Proof.
  assert (Hresponse : forall obj code,
    (code = 200 \/ code = 400 \/ code = 401 \/ code = 404)%Z ->
    (code <> 200%Z -> exists message, obj = JStr message) ->
    let r := jsonify request obj code in
    (status r = 200 \/ status r = 400 \/ status r = 401
     \/ status r = 404)%Z
    /\ mimetype r = "application/json"
    /\ indent r = (if Request.is_xhr request then None else Some 2%Z)
    /\ (status r <> 200%Z -> exists message, data r = JStr message)).
  { intros obj code Hcode Htext. cbn. auto. }
  assert (Hrefused : forall message,
    let r := _failed_authz_response g request message in
    (status r = 200 \/ status r = 400 \/ status r = 401
     \/ status r = 404)%Z
    /\ mimetype r = "application/json"
    /\ indent r = (if Request.is_xhr request then None else Some 2%Z)
    /\ (status r <> 200%Z -> exists message, data r = JStr message)).
  { intros message. apply Hresponse; [auto|]. intros _. eexists.
    reflexivity. }
  destruct route; cbn [store].
  - split; [apply Hresponse; [auto|congruence]|].
    intros _. split; [constructor|eauto].
  - unfold index, perform. cbn [bind always]. intros results.
    split; [apply Hresponse; [auto|congruence]|].
    intros _. split; [repeat constructor|eauto].
  - unfold create_annotation.
    destruct (G.user g) as [user|];
      [|split; [apply Hrefused|intros []]].
    destruct (Request.json request) as [body|] eqn:Hbody;
      [destruct (truthy body) eqn:Htruthy|];
      try (split; [apply Hresponse; [auto|eauto]|intros []]).
    destruct body;
      try (split; [|intros []]; eexists;
           split; [reflexivity|]; split; [exact Htruthy|];
           split; [discriminate|]; split; [reflexivity|]; left; auto).
    cbn [_filter_input bind]. unfold perform. cbn [bind always].
    intros stored.
    destruct (G.has_after_annotation_create g); cbn [bind always].
    + intros adjusted stored'.
      split; [apply Hresponse; [auto|congruence]|intros []].
    + split; [apply Hresponse; [auto|congruence]|intros []].
  - unfold read_annotation, _check_action, perform. cbn [bind always].
    intros fetched.
    destruct (found fetched) as [annotation|]; cbn [bind always].
    + intros [|]; cbn [negb bind always].
      * split; [apply Hresponse; [auto|congruence]|].
        intros _. split; [repeat constructor|eauto].
      * split; [apply Hrefused|].
        intros _. split; [repeat constructor|eauto].
    + split; [apply Hresponse; [auto|eauto]|].
      intros _. split; [repeat constructor|eauto].
  - unfold update_annotation, _check_action, perform. cbn [bind always].
    intros fetched.
    destruct (found fetched) as [annotation|]; cbn [bind always];
      [|split; [apply Hresponse; [auto|eauto]|intros []]].
    intros [|]; cbn [negb bind always];
      [|split; [apply Hrefused|intros []]].
    destruct (Request.json request) as [body|] eqn:Hbody;
      [destruct (truthy body) eqn:Htruthy|];
      try (split; [apply Hresponse; [auto|congruence]|intros []]).
    destruct body;
      try (split; [|intros []]; eexists;
           split; [reflexivity|]; split; [exact Htruthy|];
           split; [discriminate|]; split; [reflexivity|]; right; eauto).
    cbn [_filter_input bind].
    assert (Hsave : forall (checks : list call) (m : Annotation),
      always
        (fun t o =>
           match o with
           | Returned (ViewResponse r) =>
               (status r = 200 \/ status r = 400 \/ status r = 401
                \/ status r = 404)%Z
               /\ mimetype r = "application/json"
               /\ indent r
                  = (if Request.is_xhr request then None else Some 2%Z)
               /\ (status r <> 200%Z ->
                   exists message, data r = JStr message)
           | Returned (ViewTuple rv code) =>
               rv = None /\ code = 204%Z
               /\ exists id', PUT_annotation id = DELETE_annotation id'
           | Raised e =>
               exists body,
                 Some (JDict d) = Some body
                 /\ truthy body = true
                 /\ (forall d, body <> JDict d)
                 /\ e = match body with
                        | JList _ => TypeError
                        | _ => AttributeError
                        end
                 /\ ((PUT_annotation id = POST_annotations
                      /\ checks ++ t = [])
                     \/ exists id' annotation,
                          PUT_annotation id = PUT_annotation id'
                          /\ checks ++ t
                             = [Annotation_fetch id';
                                g_authorize annotation "update"
                                  (G.user g)])
           end
           /\ (False -> Forall is_read (checks ++ t)
                        /\ exists v, o = Returned v))
        (let* merged :=
           if G.has_before_annotation_update g
           then Do (g_before_annotation_update m) Ret
           else Ret m in
         let* merged := Do (Annotation_save merged) Ret in
         Ret (ViewResponse (jsonify request (JDict merged) 200)))).
    { intros checks m. destruct (G.has_before_annotation_update g);
        cbn [bind always].
      - intros adjusted stored.
        split; [apply Hresponse; [auto|congruence]|intros []].
      - intros stored.
        split; [apply Hresponse; [auto|congruence]|intros []]. }
    destruct (_ !! "permissions") as [permissions|];
      [destruct (py_eq permissions _)|]; cbn [negb bind always].
    + exact (Hsave [_; _] _).
    + intros [|]; cbn [negb bind always].
      * exact (Hsave [_; _; _] _).
      * split; [apply Hrefused|intros []].
    + exact (Hsave [_; _] _).
  - unfold delete_annotation, _check_action, perform. cbn [bind always].
    intros fetched.
    destruct (found fetched) as [annotation|]; cbn [bind always];
      [|split; [apply Hresponse; [auto|eauto]|intros []]].
    intros [|]; cbn [negb bind always];
      [|split; [apply Hrefused|intros []]].
    intros _. split; [eauto|intros []].
  - unfold search_annotations, perform. cbn [bind always].
    intros results total.
    split; [apply Hresponse; [auto|congruence]|].
    intros _. split; [repeat constructor|eauto].
Qed.

(** X9: whatever the collaborators answer, a response of any route has status
    200, 400, 401 or 404 and the JSON mimetype, is indented by 2 unless the
    request is an XHR, and carries a JSON text as soon as its status is not
    200.  The only other value a route returns is the pair [(None, 204)],
    by a delete. *)
Theorem store_answers g request route w v t w' :
  run handle (store g request route) w = (Returned v, t, w') ->
  match v with
  | ViewResponse r =>
      (status r = 200 \/ status r = 400 \/ status r = 401
       \/ status r = 404)%Z
      /\ mimetype r = "application/json"
      /\ indent r = (if Request.is_xhr request then None else Some 2%Z)
      /\ (status r <> 200%Z -> exists message, data r = JStr message)
  | ViewTuple rv code =>
      rv = None /\ code = 204%Z /\ exists id, route = DELETE_annotation id
  end.
Proof.
  intros Hrun.
  destruct (always_run _ _ _ _ _ _ (store_always g request route) Hrun)
    as [Hanswer _].
  exact Hanswer.
Qed.


(** X11: the routes answered to GET never raise and never save, delete or run
    a hook: all their calls fetch, ask for authorization, search or
    count. *)
Theorem get_routes_only_read g request route w o t w' :
  run handle (store g request route) w = (o, t, w') ->
  route = GET_root \/ route = GET_annotations \/ route = GET_search
  \/ (exists id, route = GET_annotation id) ->
  Forall is_read t /\ exists v, o = Returned v.
Proof.
  intros Hrun Hroute.
  destruct (always_run _ _ _ _ _ _ (store_always g request route) Hrun)
    as [_ Hread].
  apply Hread.
  destruct Hroute as [-> | [-> | [-> | [id ->]]]]; exact I.
Qed.

(** ** The helpers *)

(** X12: on a dictionary [_filter_input] does not raise: it gives the
    dictionary without the listed fields, every other key with its value,
    and filtering the result again changes nothing. *)
Theorem filter_input_dict (d : Annotation) (fields : list string) :
  exists filtered,
    _filter_input (JDict d) fields = Ret filtered
    /\ (forall k, k ∈ fields -> filtered !! k = None)
    /\ (forall k, k ∉ fields -> filtered !! k = d !! k)
    /\ _filter_input (JDict filtered) fields = Ret filtered.
Proof.
  eexists. split; [reflexivity|]. split; [|split].
  - intros k Hk. rewrite lookup_pop_all, decide_True; [reflexivity|exact Hk].
  - intros k Hk.
    rewrite lookup_pop_all, decide_False; [reflexivity|exact Hk].
  - cbn. f_equal. apply map_eq. intros k.
    rewrite !lookup_pop_all. destruct (decide (k ∈ fields)); reflexivity.
Qed.

(** X13: the two forms of an owner give the same guess: a text that is not
    empty, and a dictionary with that text as [id]. *)
Theorem get_annotation_user_forms (a b : Annotation) (s : string)
    (m : gmap string jvalue) :
  s <> "" ->
  a !! "user" = Some (JStr s) ->
  b !! "user" = Some (JDict m) ->
  m !! "id" = Some (JStr s) ->
  _get_annotation_user a = JStr s /\ _get_annotation_user b = JStr s.
Proof.
  intros Hs Ha Hb Hm. unfold _get_annotation_user. rewrite Ha, Hb.
  split.
  - destruct s; [congruence|reflexivity].
  - cbn [default from_option id]. rewrite (truthy_dict_lookup _ _ _ Hm).
    cbn. rewrite Hm. reflexivity.
Qed.
End Further.

(** ** Integers in the query *)












(** ** Before and after the views *)

(** X16: after [before_request] the [user] attribute of [g] is bound.  An
    identity resolved for the request wins over what was bound; without one
    the bound value stays, and [None] is bound when there was nothing.
    Running it again with the same answer changes nothing. *)
Theorem before_request_binds (resolved : option User.t)
    (g_user : option (option User.t)) :
  exists user,
    before_request resolved g_user = Some user
    /\ (forall u, resolved = Some u -> user = Some u)
    /\ (resolved = None -> forall bound, g_user = Some bound -> user = bound)
    /\ (resolved = None -> g_user = None -> user = None)
    /\ before_request resolved (before_request resolved g_user)
       = before_request resolved g_user.
Proof.
  destruct resolved as [u|]; [|destruct g_user as [bound|]];
    eexists; (split; [reflexivity|]); repeat split; congruence.
Qed.

Lemma same_iff (key key' : string) :
  Headers.same key key' = true <-> Headers.lower key = Headers.lower key'.
Proof. unfold Headers.same. apply String.eqb_eq. Qed.

Lemma same_refl (key : string) : Headers.same key key = true.
Proof. apply same_iff. reflexivity. Qed.

(** Two names that are the same compare alike with any third. *)
Lemma same_congr (key key' other : string) :
  Headers.same key key' = true ->
  Headers.same key other = Headers.same key' other.
Proof.
  intros Hsame%same_iff. unfold Headers.same. rewrite Hsame. reflexivity.
Qed.

Lemma same_sym (key key' : string) :
  Headers.same key key' = Headers.same key' key.
Proof. unfold Headers.same. apply String.eqb_sym. Qed.

Lemma same_other (key key' other : string) :
  Headers.same key key' = false ->
  Headers.same key' other = true ->
  Headers.same key other = false.
Proof.
  intros Hother Hsame%same_iff. unfold Headers.same in *.
  rewrite <- Hsame. exact Hother.
Qed.

Lemma get_filter_other (key key' : string) (headers : list (string * string)) :
  Headers.same key key' = false ->
  Headers.get key
    (List.filter (fun h => negb (Headers.same key' h.1)) headers)
  = Headers.get key headers.
Proof.
  intros Hother. induction headers as [|[k v] headers IH]; cbn;
    [reflexivity|].
  destruct (Headers.same key' k) eqn:Hk; cbn.
  - rewrite IH, (same_other _ _ _ Hother Hk). reflexivity.
  - rewrite IH. reflexivity.
Qed.

Lemma get_set_same (key key' value : string)
    (headers : list (string * string)) :
  Headers.same key key' = true ->
  Headers.get key (Headers.set key' value headers) = Some value.
Proof.
  intros Hsame. induction headers as [|[k v] headers IH]; cbn.
  - rewrite Hsame. reflexivity.
  - destruct (Headers.same key' k) eqn:Hk; cbn.
    + rewrite Hsame. reflexivity.
    + rewrite (same_congr _ _ _ Hsame), Hk. exact IH.
Qed.

Lemma get_set_other (key key' value : string)
    (headers : list (string * string)) :
  Headers.same key key' = false ->
  Headers.get key (Headers.set key' value headers)
  = Headers.get key headers.
Proof.
  intros Hother. induction headers as [|[k v] headers IH]; cbn.
  - rewrite Hother. reflexivity.
  - destruct (Headers.same key' k) eqn:Hk; cbn.
    + rewrite Hother, (get_filter_other _ _ _ Hother).
      rewrite (same_other _ _ _ Hother Hk). reflexivity.
    + rewrite IH. reflexivity.
Qed.

Lemma count_filter_same (key key' : string)
    (headers : list (string * string)) :
  Headers.same key key' = true ->
  List.filter (fun h => Headers.same key h.1)
    (List.filter (fun h => negb (Headers.same key' h.1)) headers)
  = [].
Proof.
  intros Hsame. induction headers as [|[k v] headers IH]; cbn;
    [reflexivity|].
  destruct (Headers.same key' k) eqn:Hk; cbn; [exact IH|].
  rewrite (same_congr _ _ _ Hsame), Hk. exact IH.
Qed.

Lemma count_filter_other (key key' : string)
    (headers : list (string * string)) :
  Headers.same key key' = false ->
  List.filter (fun h => Headers.same key h.1)
    (List.filter (fun h => negb (Headers.same key' h.1)) headers)
  = List.filter (fun h => Headers.same key h.1) headers.
Proof.
  intros Hother. induction headers as [|[k v] headers IH]; cbn;
    [reflexivity|].
  destruct (Headers.same key' k) eqn:Hk; cbn.
  - rewrite (same_other _ _ _ Hother Hk). exact IH.
  - rewrite IH. reflexivity.
Qed.

Lemma filter_set_same (key key' value : string)
    (headers : list (string * string)) :
  Headers.same key key' = true ->
  List.filter (fun h => Headers.same key h.1)
    (Headers.set key' value headers)
  = [(key', value)].
Proof.
  intros Hsame. induction headers as [|[k v] headers IH]; cbn.
  - rewrite Hsame. reflexivity.
  - destruct (Headers.same key' k) eqn:Hk; cbn.
    + rewrite Hsame, (count_filter_same _ _ _ Hsame). reflexivity.
    + rewrite (same_congr _ _ _ Hsame), Hk. exact IH.
Qed.

Lemma filter_set_other (key key' value : string)
    (headers : list (string * string)) :
  Headers.same key key' = false ->
  List.filter (fun h => Headers.same key h.1)
    (Headers.set key' value headers)
  = List.filter (fun h => Headers.same key h.1) headers.
Proof.
  intros Hother. induction headers as [|[k v] headers IH]; cbn.
  - rewrite Hother. reflexivity.
  - destruct (Headers.same key' k) eqn:Hk; cbn.
    + rewrite Hother, (count_filter_other _ _ _ Hother).
      rewrite (same_other _ _ _ Hother Hk). reflexivity.
    + rewrite IH. reflexivity.
Qed.

(** X17: after [after_request] the response says which origin is allowed, the
    origin of the request or [*] when it has none, and which headers are
    exposed; the answer to an [OPTIONS] request also carries the allowed
    headers and methods and the maximal age.  Names are looked up without
    regard to case. *)
Theorem after_request_cors (origin : option string) (method : string)
    (headers : list (string * string)) :
  let response := after_request origin method headers in
  Headers.get "access-control-allow-origin" response
  = Some (default "*" origin)
  /\ Headers.get "access-control-expose-headers" response
     = Some "Content-Length, Content-Type, Location"
  /\ (method = "OPTIONS" ->
      Headers.get "access-control-allow-headers" response
      = Some ("Content-Length, Content-Type, X-Annotator-Auth-Token, "
              +:+ "X-Requested-With")
      /\ Headers.get "access-control-allow-methods" response
         = Some "GET, POST, PUT, DELETE, OPTIONS"
      /\ Headers.get "access-control-max-age" response = Some "86400").
Proof.
  cbn zeta. unfold after_request.
  destruct (String.eqb method "OPTIONS") eqn:Hmethod.
  - repeat split;
      repeat first
        [ rewrite get_set_same by reflexivity; reflexivity
        | rewrite get_set_other by reflexivity ].
  - split; [|split].
    + rewrite get_set_other by reflexivity.
      rewrite get_set_same by reflexivity. reflexivity.
    + rewrite get_set_same by reflexivity. reflexivity.
    + intros ->. discriminate Hmethod.
Qed.


(** X19: however often the view had set them, after [after_request] the
    response has the allowed origin and the exposed headers once each, under
    the names as written here. *)
Theorem after_request_once (origin : option string) (method : string)
    (headers : list (string * string)) :
  let response := after_request origin method headers in
  List.filter (fun h => Headers.same "Access-Control-Allow-Origin" h.1)
    response
  = [("Access-Control-Allow-Origin", default "*" origin)]
  /\ List.filter
       (fun h => Headers.same "Access-Control-Expose-Headers" h.1) response
     = [("Access-Control-Expose-Headers",
         "Content-Length, Content-Type, Location")].
Proof.
  cbn zeta. unfold after_request.
  destruct (String.eqb method "OPTIONS"); cbn zeta; cbn [String.append];
    split;
    repeat first
      [ rewrite filter_set_same by reflexivity; reflexivity
      | rewrite filter_set_other by reflexivity ].
Qed.

(** ** The same update twice *)

Section Twice.
Context {W : Type} (handle : forall c : call, W -> answer c * W).

(** Without hook, an update with a JSON object as body that passes its
    checks ends with the save of the filtered body, with the id of the URL,
    laid over the annotation that was fetched. *)
Lemma update_annotation_saves g request id (annotation d : Annotation)
    w w1 w2 :
  handle (Annotation_fetch id) w = (Some annotation, w1) ->
  truthy (JDict annotation) = true ->
  handle (g_authorize annotation "update" (G.user g)) w1 = (true, w2) ->
  Request.json request = Some (JDict d) ->
  truthy (JDict d) = true ->
  (forall permissions,
     d !! "permissions" = Some permissions ->
     py_eq permissions (default (JDict ∅) (annotation !! "permissions"))
     = false ->
     (handle (g_authorize annotation "admin" (G.user g)) w2).1 = true) ->
  G.has_before_annotation_update g = false ->
  exists checks o w',
    run handle (update_annotation g request id) w
    = (o,
       checks
       ++ [Annotation_save
             (<["id" := JStr id]>
                (foldl (fun d field => delete field d) d
                   UPDATE_FILTER_FIELDS) ∪ annotation)], w')
    /\ Forall is_check checks.
Proof.
  intros Hfetch Hfound Hauth Hbody Htruthy Hadmin Hhook.
  set (updated := <["id" := JStr id]>
                    (foldl (fun d field => delete field d) d
                       UPDATE_FILTER_FIELDS)).
  assert (Hperm : updated !! "permissions" = d !! "permissions").
  { unfold updated. rewrite lookup_insert_ne by discriminate.
    rewrite lookup_pop_all, decide_False; [reflexivity|].
    unfold UPDATE_FILTER_FIELDS. not_a_field. }
  assert (Hfinish : forall w3, exists o w',
    run handle
      (let* merged := Ret (updated ∪ annotation) in
       let* merged := perform (Annotation_save merged) in
       Ret (ViewResponse (jsonify request (JDict merged) 200))) w3
    = (o, [Annotation_save (updated ∪ annotation)], w')).
  { intros w3. unfold perform. cbn.
    destruct (handle (Annotation_save _) w3). eauto. }
  unfold update_annotation, _check_action at 1, perform. cbn.
  rewrite Hfetch. cbn in Hfound |- *. rewrite Hfound. cbn.
  rewrite Hauth. cbn. rewrite Hbody.
  change (negb (size d =? 0)) with (truthy (JDict d)). rewrite Htruthy.
  cbn [_filter_input bind]. fold updated. rewrite Hperm, Hhook.
  destruct (d !! "permissions") as [permissions|] eqn:Hd.
  - destruct (py_eq permissions _) eqn:Hdiff; cbn [negb bind].
    + destruct (Hfinish w2) as (o & w' & Hrun). rewrite_run Hrun.
      exists [Annotation_fetch id;
              g_authorize annotation "update" (G.user g)], o, w'.
      split; [reflexivity|]. repeat constructor.
    + specialize (Hadmin permissions eq_refl Hdiff).
      unfold _check_action, perform. cbn.
      destruct (handle (g_authorize annotation "admin" (G.user g)) w2)
        as [ok w3]. cbn in Hadmin. subst ok. cbn [negb bind].
      destruct (Hfinish w3) as (o & w' & Hrun). rewrite_run Hrun.
      exists [Annotation_fetch id;
              g_authorize annotation "update" (G.user g);
              g_authorize annotation "admin" (G.user g)], o, w'.
      split; [reflexivity|]. repeat constructor.
  - cbn [bind]. destruct (Hfinish w2) as (o & w' & Hrun).
    rewrite_run Hrun.
    exists [Annotation_fetch id;
            g_authorize annotation "update" (G.user g)], o, w'.
    split; [reflexivity|]. repeat constructor.
Qed.

(** X20: sending the same update again changes nothing more: when the second
    request fetches the annotation that the first one handed to [save], and
    passes its checks too, it hands that same annotation to [save]. *)
Theorem update_annotation_twice g request id (annotation d : Annotation)
    w w1 w2 :
  handle (Annotation_fetch id) w = (Some annotation, w1) ->
  truthy (JDict annotation) = true ->
  handle (g_authorize annotation "update" (G.user g)) w1 = (true, w2) ->
  Request.json request = Some (JDict d) ->
  truthy (JDict d) = true ->
  (forall permissions,
     d !! "permissions" = Some permissions ->
     py_eq permissions (default (JDict ∅) (annotation !! "permissions"))
     = false ->
     (handle (g_authorize annotation "admin" (G.user g)) w2).1 = true) ->
  G.has_before_annotation_update g = false ->
  exists merged checks o w',
    run handle (update_annotation g request id) w
    = (o, checks ++ [Annotation_save merged], w')
    /\ forall v v1 v2,
         handle (Annotation_fetch id) v = (Some merged, v1) ->
         handle (g_authorize merged "update" (G.user g)) v1 = (true, v2) ->
         (forall permissions,
            d !! "permissions" = Some permissions ->
            py_eq permissions (default (JDict ∅) (merged !! "permissions"))
            = false ->
            (handle (g_authorize merged "admin" (G.user g)) v2).1 = true) ->
         exists checks' o' v',
           run handle (update_annotation g request id) v
           = (o', checks' ++ [Annotation_save merged], v').
Proof.
  intros Hfetch Hfound Hauth Hbody Htruthy Hadmin Hhook.
  destruct (update_annotation_saves g request id annotation d w w1 w2
              Hfetch Hfound Hauth Hbody Htruthy Hadmin Hhook)
    as (checks & o & w' & Hrun & _).
  set (updated := <["id" := JStr id]>
                    (foldl (fun d field => delete field d) d
                       UPDATE_FILTER_FIELDS)) in *.
  exists (updated ∪ annotation), checks, o, w'. split; [exact Hrun|].
  intros v v1 v2 Hfetch' Hauth' Hadmin'.
  assert (Hfound' : truthy (JDict (updated ∪ annotation)) = true).
  { apply (truthy_dict_lookup _ "id" (JStr id)).
    apply lookup_union_Some_l, lookup_insert_eq. }
  destruct (update_annotation_saves g request id (updated ∪ annotation) d
              v v1 v2 Hfetch' Hfound' Hauth' Hbody Htruthy Hadmin' Hhook)
    as (checks' & o' & v' & Hrun' & _).
  fold updated in Hrun'.
  rewrite (assoc_L (∪)), (idemp_L (∪)) in Hrun'.
  exists checks', o', v'. exact Hrun'.
Qed.
End Twice.

(** * The further properties at work *)

Lemma read_annotation_found_witness :
  exists r,
    run Memory.handle
      (read_annotation (Memory.as_user (Some Memory.alice))
         (Memory.with_body None) "42")
      (Memory.shelf ["read"])
    = (Returned (ViewResponse r),
       [Annotation_fetch "42";
        g_authorize Memory.note "read" (Some Memory.alice)],
       Memory.shelf ["read"])
    /\ status r = 200%Z
    /\ data r = JDict Memory.note.
Proof.
  apply (read_annotation_found Memory.handle
           (Memory.as_user (Some Memory.alice)) (Memory.with_body None)
           "42" Memory.note (Memory.shelf ["read"]) (Memory.shelf ["read"])
           (Memory.shelf ["read"])).
  - reflexivity.
  - reflexivity.
  - reflexivity.
Defined.

Lemma annotation_not_found_witness :
  exists r,
    run Memory.handle
      (store (Memory.as_user (Some Memory.alice)) (Memory.with_body None)
         (DELETE_annotation "43"))
      (Memory.shelf ["delete"])
    = (Returned (ViewResponse r), [Annotation_fetch "43"],
       Memory.shelf ["delete"])
    /\ status r = 404%Z
    /\ data r = JStr "Annotation not found. No delete performed.".
Proof.
  apply (annotation_not_found Memory.handle
           (Memory.as_user (Some Memory.alice)) (Memory.with_body None)
           "43" None (Memory.shelf ["delete"]) (Memory.shelf ["delete"])).
  - reflexivity.
  - left. reflexivity.
  - do 2 right. left.
Defined.

Lemma annotation_check_refused_witness :
  exists r,
    run Memory.handle
      (store (Memory.as_user (Some Memory.alice))
         (Memory.with_body (Some (JList [JInt 1])))
         (PUT_annotation "42"))
      (Memory.shelf ["read"])
    = (Returned (ViewResponse r),
       [Annotation_fetch "42";
        g_authorize Memory.note "update" (Some Memory.alice)],
       Memory.shelf ["read"])
    /\ status r = 401%Z.
Proof.
  apply (annotation_check_refused Memory.handle
           (Memory.as_user (Some Memory.alice))
           (Memory.with_body (Some (JList [JInt 1])))
           "42" Memory.note (Memory.shelf ["read"])
           (Memory.shelf ["read"])).
  - reflexivity.
  - reflexivity.
  - right. left.
  - reflexivity.
Defined.

Lemma delete_annotation_deletes_witness :
  run Memory.handle
    (delete_annotation (Memory.as_user (Some Memory.alice))
       (Memory.with_body None) "42")
    (Memory.shelf ["delete"])
  = (Returned (ViewTuple None 204),
     [Annotation_fetch "42";
      g_authorize Memory.note "delete" (Some Memory.alice);
      Annotation_delete Memory.note],
     (Memory.handle (Annotation_delete Memory.note)
        (Memory.shelf ["delete"])).2).
Proof.
  apply (delete_annotation_deletes Memory.handle
           (Memory.as_user (Some Memory.alice)) (Memory.with_body None)
           "42" Memory.note (Memory.shelf ["delete"])
           (Memory.shelf ["delete"]) (Memory.shelf ["delete"])).
  - reflexivity.
  - reflexivity.
  - reflexivity.
Defined.

Lemma update_annotation_same_permissions_witness :
  exists merged stored w3 r,
    Memory.handle (Annotation_save merged) (Memory.shelf ["update"])
    = (stored, w3)
    /\ run Memory.handle
         (update_annotation (Memory.as_user (Some Memory.alice))
            (Memory.with_body (Some (JDict Memory.forged))) "42")
         (Memory.shelf ["update"])
       = (Returned (ViewResponse r),
          [Annotation_fetch "42";
           g_authorize Memory.note "update" (Some Memory.alice);
           Annotation_save merged], w3)
    /\ status r = 200%Z
    /\ data r = JDict stored.
Proof.
  apply (update_annotation_same_permissions Memory.handle
           (Memory.as_user (Some Memory.alice))
           (Memory.with_body (Some (JDict Memory.forged))) "42"
           Memory.note Memory.forged (Memory.shelf ["update"])
           (Memory.shelf ["update"]) (Memory.shelf ["update"])).
  - reflexivity.
  - reflexivity.
  - reflexivity.
  - reflexivity.
  - reflexivity.
  - left. vm_compute. reflexivity.
  - reflexivity.
Defined.


Lemma create_annotation_through_hook_witness :
  exists built stored adjusted w3 r,
    run Memory.handle
      (create_annotation (with_hooks (Some Memory.alice))
         (Memory.with_body (Some (JDict Memory.forged))))
      (Memory.shelf [])
    = (Returned (ViewResponse r),
       [Annotation_save built; g_after_annotation_create stored;
        Annotation_save adjusted], w3)
    /\ adjusted = <["hooked" := JBool true]> stored
    /\ status r = 200%Z.
Proof.
  destruct (create_annotation_through_hook Memory.handle
              (with_hooks (Some Memory.alice))
              (Memory.with_body (Some (JDict Memory.forged)))
              Memory.alice Memory.forged (Memory.shelf []))
    as (built & stored & w1 & adjusted & w2 & stored' & w3 & r & _
        & Hadjust & _ & Hrun & Hstatus & _).
  - reflexivity.
  - reflexivity.
  - reflexivity.
  - reflexivity.
  - exists built, stored, adjusted, w3, r. split; [exact Hrun|].
    split; [|exact Hstatus]. cbn in Hadjust. congruence.
Defined.

Lemma create_annotation_owner_witness :
  exists saved rest o w',
    run Memory.handle
      (create_annotation (Memory.as_user (Some Memory.alice))
         (Memory.with_body (Some (JDict Memory.forged))))
      (Memory.shelf [])
    = (o, Annotation_save saved :: rest, w')
    /\ _get_annotation_user saved = JStr "alice".
Proof.
  apply (create_annotation_owner Memory.handle
           (Memory.as_user (Some Memory.alice))
           (Memory.with_body (Some (JDict Memory.forged)))
           Memory.alice Memory.forged (Memory.shelf [])).
  - reflexivity.
  - reflexivity.
  - reflexivity.
  - discriminate.
Defined.

Lemma store_answers_witness :
  exists r t w',
    run Memory.handle
      (store (Memory.as_user (Some Memory.alice)) (Memory.with_body None)
         POST_annotations)
      (Memory.shelf [])
    = (Returned (ViewResponse r), t, w')
    /\ status r = 400%Z
    /\ mimetype r = "application/json"
    /\ indent r = Some 2%Z
    /\ exists message, data r = JStr message.
Proof.
  pose proof (store_answers Memory.handle
                (Memory.as_user (Some Memory.alice)) (Memory.with_body None)
                POST_annotations (Memory.shelf [])
                (ViewResponse
                   (jsonify (Memory.with_body None)
                      (JStr "No JSON payload sent. Annotation not created.")
                      400))
                [] (Memory.shelf []) eq_refl)
    as (_ & Hmime & Hindent & Htext).
  do 3 eexists. split; [reflexivity|]. split; [reflexivity|].
  split; [exact Hmime|]. split; [exact Hindent|].
  apply Htext. discriminate.
Defined.


Lemma get_routes_only_read_witness :
  exists o t w',
    run Memory.handle
      (store (Memory.as_user None) (Memory.with_args (<["q" := "x"]> ∅))
         GET_search)
      (Memory.shelf [])
    = (o, t, w')
    /\ Forall is_read t
    /\ exists v, o = Returned v.
Proof.
  do 3 eexists. split; [reflexivity|].
  eapply (get_routes_only_read Memory.handle (Memory.as_user None)
            (Memory.with_args (<["q" := "x"]> ∅)) GET_search
            (Memory.shelf [])).
  - reflexivity.
  - do 2 right. left. reflexivity.
Defined.

Lemma get_annotation_user_forms_witness :
  _get_annotation_user (<["user" := JStr "alice"]> ∅) = JStr "alice"
  /\ _get_annotation_user
       (<["user" := JDict (<["id" := JStr "alice"]> ∅)]> ∅)
     = JStr "alice".
Proof.
  apply (get_annotation_user_forms
           (<["user" := JStr "alice"]> ∅)
           (<["user" := JDict (<["id" := JStr "alice"]> ∅)]> ∅)
           "alice" (<["id" := JStr "alice"]> ∅)).
  - discriminate.
  - reflexivity.
  - reflexivity.
  - reflexivity.
Defined.



Lemma update_annotation_twice_witness :
  exists merged checks o w',
    run Memory.handle
      (update_annotation (Memory.as_user (Some Memory.alice))
         (Memory.with_body (Some (JDict Memory.forged))) "42")
      (Memory.shelf ["update"])
    = (o, checks ++ [Annotation_save merged], w')
    /\ exists checks' o' v',
         run Memory.handle
           (update_annotation (Memory.as_user (Some Memory.alice))
              (Memory.with_body (Some (JDict Memory.forged))) "42")
           {| Memory.annotations := <["42" := merged]> ∅;
              Memory.granted := ["update"] |}
         = (o', checks' ++ [Annotation_save merged], v').
Proof.
  destruct (update_annotation_twice Memory.handle
              (Memory.as_user (Some Memory.alice))
              (Memory.with_body (Some (JDict Memory.forged))) "42"
              Memory.note Memory.forged (Memory.shelf ["update"])
              (Memory.shelf ["update"]) (Memory.shelf ["update"]))
    as (merged & checks & o & w' & Hrun & Hagain).
  - reflexivity.
  - reflexivity.
  - reflexivity.
  - reflexivity.
  - reflexivity.
  - intros permissions Hnone. vm_compute in Hnone. discriminate Hnone.
  - reflexivity.
  - exists merged, checks, o, w'. split; [exact Hrun|].
    apply (Hagain
             {| Memory.annotations := <["42" := merged]> ∅;
                Memory.granted := ["update"] |}
             {| Memory.annotations := <["42" := merged]> ∅;
                Memory.granted := ["update"] |}
             {| Memory.annotations := <["42" := merged]> ∅;
                Memory.granted := ["update"] |}).
    + cbn. rewrite lookup_insert_eq. reflexivity.
    + reflexivity.
    + intros permissions Hnone. vm_compute in Hnone. discriminate Hnone.
Defined.

(** * Calls and routes *)

(** A finished run: each call it made is checked in turn. *)
Ltac calls_leaf :=
  cbn [always];
  repeat (apply Forall_cons_2; [cbn; eauto 8|]);
  apply Forall_nil_2.

Section Calls.
Context {W : Type} (handle : forall c : call, W -> answer c * W).

(** X21: an authenticated create without a body is answered 400 with its
    message, and makes no call. *)
Theorem create_annotation_no_body g request user w :
  G.user g = Some user ->
  Request.json request = None ->
  exists r,
    run handle (create_annotation g request) w
    = (Returned (ViewResponse r), [], w)
    /\ status r = 400%Z
    /\ data r = JStr "No JSON payload sent. Annotation not created.".
Proof.
  intros Huser Hbody. unfold create_annotation. rewrite Huser, Hbody.
  eexists. split; [reflexivity|]. split; reflexivity.
Qed.

(** X22: every call belongs to its route, whatever the collaborators
    answer.  Only a delete calls the storage delete; only a create or an
    update saves, and each runs its own hook only; only the index and the
    search call search, and only the search counts.  A fetch is for the id of
    the URL, and an authorization is asked for the caller bound to [g] and
    for the action of the route: read, update or admin, delete. *)
Theorem calls_belong_to_route g request route w o t w' :
  run handle (store g request route) w = (o, t, w') ->
  Forall
    (fun c =>
       match c with
       | Annotation_delete _ => exists id, route = DELETE_annotation id
       | Annotation_save _ =>
           route = POST_annotations \/ exists id, route = PUT_annotation id
       | g_after_annotation_create _ => route = POST_annotations
       | g_before_annotation_update _ => exists id, route = PUT_annotation id
       | Annotation_search _ => route = GET_annotations \/ route = GET_search
       | Annotation_count _ => route = GET_search
       | Annotation_fetch id =>
           route = GET_annotation id \/ route = PUT_annotation id
           \/ route = DELETE_annotation id
       | g_authorize _ action user =>
           user = G.user g
           /\ exists id,
                (route = GET_annotation id /\ action = "read")
                \/ (route = PUT_annotation id
                    /\ (action = "update" \/ action = "admin"))
                \/ (route = DELETE_annotation id /\ action = "delete")
       end) t.
Proof.
  intros Hrun.
  refine (always_run handle _ (fun t _ => Forall _ t) _ _ _ _ _ Hrun).
  clear Hrun.
  destruct route; cbn [store].
  - unfold root. calls_leaf.
  - unfold index, perform. cbn [bind always]. intros results. calls_leaf.
  - unfold create_annotation.
    destruct (G.user g) as [user|]; [|calls_leaf].
    destruct (Request.json request) as [body|];
      [destruct (truthy body)|]; try calls_leaf.
    destruct body; try calls_leaf.
    cbn [_filter_input bind]. unfold perform. cbn [bind always].
    intros stored.
    destruct (G.has_after_annotation_create g); cbn [bind always].
    + intros adjusted stored'. calls_leaf.
    + calls_leaf.
  - unfold read_annotation, _check_action, perform. cbn [bind always].
    intros fetched.
    destruct (found fetched) as [annotation|]; cbn [bind always];
      [|calls_leaf].
    intros [|]; cbn [negb bind always]; calls_leaf.
  - unfold update_annotation, _check_action, perform. cbn [bind always].
    intros fetched.
    destruct (found fetched) as [annotation|]; cbn [bind always];
      [|calls_leaf].
    intros [|]; cbn [negb bind always]; [|calls_leaf].
    destruct (Request.json request) as [body|];
      [destruct (truthy body)|]; try calls_leaf.
    destruct body; try calls_leaf.
    cbn [_filter_input bind].
    assert (Hsave : forall (m : Annotation) Q,
      (forall adjusted stored,
         Q [g_before_annotation_update m; Annotation_save adjusted]
           (Returned
              (ViewResponse (jsonify request (JDict stored) 200)))) ->
      (forall stored,
         Q [Annotation_save m]
           (Returned
              (ViewResponse (jsonify request (JDict stored) 200)))) ->
      always Q
        (let* merged :=
           if G.has_before_annotation_update g
           then Do (g_before_annotation_update m) Ret
           else Ret m in
         let* merged := Do (Annotation_save merged) Ret in
         Ret (ViewResponse (jsonify request (JDict merged) 200)))).
    { intros m Q Hhook Hplain.
      destruct (G.has_before_annotation_update g); cbn [bind always].
      - intros adjusted stored. apply Hhook.
      - intros stored. apply Hplain. }
    destruct (_ !! "permissions") as [permissions|];
      [destruct (py_eq permissions _)|]; cbn [negb bind always].
    + apply Hsave; intros; calls_leaf.
    + intros [|]; cbn [negb bind always]; [|calls_leaf].
      apply Hsave; intros; calls_leaf.
    + apply Hsave; intros; calls_leaf.
  - unfold delete_annotation, _check_action, perform. cbn [bind always].
    intros fetched.
    destruct (found fetched) as [annotation|]; cbn [bind always];
      [|calls_leaf].
    intros [|]; cbn [negb bind always]; [intros done|]; calls_leaf.
  - unfold search_annotations, perform. cbn [bind always].
    intros results total. calls_leaf.
Qed.
End Calls.

Lemma create_annotation_no_body_witness :
  exists r,
    run Memory.handle
      (create_annotation (Memory.as_user (Some Memory.alice))
         (Memory.with_body None))
      (Memory.shelf [])
    = (Returned (ViewResponse r), [], Memory.shelf [])
    /\ status r = 400%Z
    /\ data r = JStr "No JSON payload sent. Annotation not created.".
Proof.
  apply (create_annotation_no_body Memory.handle
           (Memory.as_user (Some Memory.alice)) (Memory.with_body None)
           Memory.alice (Memory.shelf [])).
  - reflexivity.
  - reflexivity.
Defined.

Lemma calls_belong_to_route_witness :
  Forall
    (fun c =>
       match c with
       | Annotation_delete _ | g_after_annotation_create _ => False
       | _ => True
       end)
    (run Memory.handle
       (store (Memory.as_user (Some Memory.alice))
          (Memory.with_body (Some (JDict Memory.forged)))
          (PUT_annotation "42"))
       (Memory.shelf ["update"])).1.2.
Proof.
  destruct (run Memory.handle
              (store (Memory.as_user (Some Memory.alice))
                 (Memory.with_body (Some (JDict Memory.forged)))
                 (PUT_annotation "42"))
              (Memory.shelf ["update"])) as [[o t] w'] eqn:Hrun.
  cbn [fst snd].
  eapply Forall_impl.
  - exact (calls_belong_to_route Memory.handle _ _ _ _ _ _ _ Hrun).
  - intros [] Hcall; cbn in Hcall |- *; try exact I.
    + destruct Hcall as [id Hroute]. discriminate Hroute.
    + discriminate Hcall.
Defined.
